(** * The chat client's streaming core

    A shallow embedding of the two client modules that carry the logic of
    the meeting assistant's front end:

    - [api.ts]: [queryAgentStream], the reader of the server-sent answer
      stream (frame decoding, event parsing, dispatch to the three
      callbacks);
    - [ChatInterface.tsx]: the handlers that own the ephemeral session id
      ([handlePageHide], [handleSubmit], [handleConversationSelect],
      [handleNewChat]).

    Text is held as [string], that is, as the sequence of its bytes.  The
    host's [TextDecoder], used in streaming mode, keeps back at most an
    unfinished multi-byte sequence and never a line feed, so every read is
    represented by the text it contributes to the buffer.

    What the host provides is a parameter of the model: [JSON.parse], the
    network behind [fetch], the message of a [TypeError], [trim], and the
    length and the beginning of a text in UTF-16 code units.  The
    run of [queryAgentStream] is the list of the calls it makes to
    [onChunk], [onComplete] and [onError]; the callbacks themselves
    return normally, as those of [handleSubmit] do, which only set
    state. *)

From Stdlib Require Import String Ascii List Bool Arith ZArith Lia DecimalString.
Import ListNotations.
Local Open Scope string_scope.
Local Open Scope list_scope.

(** String concatenation, the [+] of the source on texts. *)
Local Infix "+:+" := append (at level 60, right associativity).

(** ** Frame decoding: [buffer.split('\n\n')] and [lines.pop()] *)

Module Frame.

Definition LF : ascii := "010"%char.

Definition is_LF (c : ascii) : bool := Ascii.eqb c LF.

(** The record separator, ['\n\n']. *)
Definition separator : string := String LF (String LF EmptyString).

(** Puts a character in front of the first piece of a split. *)
Definition push (c : ascii) (pieces : list string) : list string :=
  match pieces with
  | [] => [String c EmptyString]
  | p :: ps => String c p :: ps
  end.

(** [s.split('\n\n')]: the pieces of [s] between the occurrences of the
    separator, found from the left and not overlapping.  The result is
    never empty: a text without separator is its own single piece. *)
Fixpoint split (s : string) : list string :=
  match s with
  | EmptyString => [EmptyString]
  | String c s' =>
      match s' with
      | EmptyString => push c (split s')
      | String c' s'' =>
          if is_LF c && is_LF c' then EmptyString :: split s''
          else push c (split s')
      end
  end.

(** [lines.pop() || '']: the last piece, which stays in the buffer. *)
Definition pop (lines : list string) : string := last lines EmptyString.

(** What is left in [lines] after [lines.pop()]. *)
Definition popped (lines : list string) : list string := removelast lines.

(** One turn of the read loop, lines 98 to 100: the text of the read is
    appended to the buffer, the buffer is split, the last piece becomes
    the new buffer and the pieces before it are the records of this
    turn. *)
Definition feed (buffer text : string) : list string * string :=
  let lines := split (buffer +:+ text) in
  (popped lines, pop lines).

(** The records that a sequence of reads yields when every turn of the
    loop is taken, with the buffer that remains at the end of the
    stream. *)
Fixpoint decode (buffer : string) (reads : list string)
  : list string * string :=
  match reads with
  | [] => ([], buffer)
  | text :: reads' =>
      let (records, buffer') := feed buffer text in
      let (later, final) := decode buffer' reads' in
      (records ++ later, final)
  end.

(** The text that a list of reads amounts to. *)
Definition received (reads : list string) : string :=
  fold_right append EmptyString reads.

(** A text holds a blank line when two line feeds follow each other. *)
Fixpoint has_blank_line (s : string) : bool :=
  match s with
  | EmptyString => false
  | String c s' =>
      match s' with
      | EmptyString => false
      | String c' _ => (is_LF c && is_LF c') || has_blank_line s'
      end
  end.

(** A record is well formed for the framing when the separator cannot be
    mistaken: it holds no blank line and does not end in a line feed,
    which is to say that the record followed by one line feed has no
    blank line. *)
Definition well_formed (r : string) : bool :=
  negb (has_blank_line (r +:+ String LF EmptyString)).

(** The wire form of a list of records: each followed by the separator. *)
Definition framed (records : list string) : string :=
  received (map (fun r => r +:+ separator) records).

(** A buffer that holds no separator: it is its own single piece. *)
Definition settled (b : string) : Prop := split b = [b].

End Frame.


(** ** The values of the host language

    What [JSON.parse] returns and what the callbacks receive are values
    of the host language; the program tests them for truth ([||]), joins
    them to text ([+=]) and reads their properties. *)

Module Js.

(** A number is held as the text that the host's number-to-string
    conversion gives it, which is all the program uses of a number. *)
#[local] Unset Elimination Schemes.
Inductive value : Type :=
| Undefined
| Null
| Bool (b : bool)
| Num (repr : string)
| Str (s : string)
| Arr (items : list value)
| Obj (props : list (string * value)).
#[local] Set Elimination Schemes.

(** The truth of a value in [a || b] and [!a]. *)
Definition truthy (v : value) : bool :=
  match v with
  | Undefined | Null => false
  | Bool b => b
  | Num repr => negb (String.eqb repr "0" || String.eqb repr "NaN")
  | Str s => negb (String.eqb s "")
  | Arr _ | Obj _ => true
  end.

(** [a || b]. *)
Definition or_else (a b : value) : value := if truthy a then a else b.

(** The text of a value in [text + value]. *)
Fixpoint to_string (v : value) : string :=
  match v with
  | Undefined => "undefined"
  | Null => "null"
  | Bool true => "true"
  | Bool false => "false"
  | Num repr => repr
  | Str s => s
  | Arr items =>
      (fix join (l : list value) : string :=
         match l with
         | [] => ""
         | x :: l' =>
             let item :=
               match x with
               | Undefined | Null => ""
               | _ => to_string x
               end in
             match l' with
             | [] => item
             | _ :: _ => item +:+ "," +:+ join l'
             end
         end) items
  | Obj _ => "[object Object]"
  end.

(** Reading a property of [null] or [undefined] raises a [TypeError]. *)
Definition nullish (v : value) : bool :=
  match v with
  | Undefined | Null => true
  | _ => false
  end.

Fixpoint lookup (name : string) (props : list (string * value)) : value :=
  match props with
  | [] => Undefined
  | (k, x) :: props' => if String.eqb k name then x else lookup name props'
  end.

(** [v.name] for a value that is not nullish and for the names this
    program reads ([type], [session_id], [content], [response], [error],
    [detail]), none of which a text, a number, a boolean or an array
    has. *)
Definition prop (v : value) (name : string) : value :=
  match v with
  | Obj props => lookup name props
  | _ => Undefined
  end.

(** [v === 'text']. *)
Definition is_text (v : value) (text : string) : bool :=
  match v with
  | Str s => String.eqb s text
  | _ => false
  end.

(** What a [catch] clause receives. *)
Inductive thrown : Type :=
| ErrorObject (message : string)
| OtherThrown.

(** [line.slice(n)]. *)
Fixpoint slice (n : nat) (s : string) : string :=
  match n, s with
  | O, _ => s
  | S n', String _ s' => slice n' s'
  | S _, EmptyString => EmptyString
  end.

(** [line.startsWith(marker)]. *)
Definition startsWith (line marker : string) : bool := prefix marker line.

(** A number in a template literal. *)
Definition decimal (n : nat) : string :=
  NilEmpty.string_of_uint (Nat.to_uint n).

End Js.

(** ** [queryAgentStream] *)

Module Stream.
Import Frame Js.

(** The body sent to [/agent/query/stream]; a field that is [undefined]
    is left out by [JSON.stringify]. *)
Record request : Type := {
  question : string;
  session_id : value;
  conversation_id : option string
}.

(** [x || undefined] on an optional text. *)
Definition or_undefined (x : option string) : option string :=
  match x with
  | Some s => if String.eqb s "" then None else Some s
  | None => None
  end.

(** The body of a response as the reader delivers it: the texts of the
    reads that resolve with [done: false], then either [done: true] or a
    read that rejects. *)
Record stream : Type := {
  reads : list string;
  failure : option thrown
}.

(** A response: its status, what [response.json()] resolves to ([None]
    when it rejects) and its body ([None] when [response.body] is
    null). *)
Record response : Type := {
  status : nat;
  json : option value;
  body : option stream
}.

(** [response.ok]: the status is in the range 200 to 299. *)
Definition ok (r : response) : bool :=
  Nat.leb 200 (status r) && Nat.leb (status r) 299.

(** What [await fetch(...)] gives. *)
Inductive fetched : Type :=
| Rejected (e : thrown)
| Resolved (r : response).

(** The calls that [queryAgentStream] makes to its three callbacks. *)
Inductive call : Type :=
| onChunk (chunk : value)
| onComplete (fullResponse newSessionId : value)
| onError (error : value).

(** The calls that end a stream for the caller. *)
Definition is_terminal_call (c : call) : bool :=
  match c with
  | onChunk _ => false
  | onComplete _ _ | onError _ => true
  end.

(** The variables of the read loop other than the buffer. *)
Record vars : Type := {
  fullResponse : string;
  currentSessionId : value
}.

(** How the body of the inner loop ends for a line: the loop goes on, or
    the function returns. *)
Inductive flow : Type :=
| Next (v : vars)
| Return.

(** [error instanceof Error ? error.message : 'Network error'] *)
Definition catch_message (e : thrown) : value :=
  match e with
  | ErrorObject message => Str message
  | OtherThrown => Str "Network error"
  end.

Section Orchestrator.

(** The host's [JSON.parse]; [None] when it raises a [SyntaxError]. *)
Variable JSON_parse : string -> option value.

(** The network: what [fetch] gives for a request body. *)
Variable fetch : request -> fetched.

(** The message of the [TypeError] that reading the named property of
    [null] raises. *)
Variable TypeError_message : string -> string.

(** Lines 103 to 122: the body of [for (const line of lines)].  A call to
    [console.error] leaves no trace in the callbacks and is not
    recorded. *)
Definition on_line (v : vars) (line : string) : list call * flow :=
  if startsWith line "data: " then
    match JSON_parse (slice 6 line) with
    | None => ([], Next v)
    | Some data =>
        if nullish data then ([], Next v)
        else if is_text (prop data "type") "session" then
          ([], Next {| fullResponse := fullResponse v;
                       currentSessionId := prop data "session_id" |})
        else if is_text (prop data "type") "chunk" then
          ([onChunk (prop data "content")],
           Next {| fullResponse :=
                     fullResponse v +:+ to_string (prop data "content");
                   currentSessionId := currentSessionId v |})
        else if is_text (prop data "type") "done" then
          ([onComplete
              (or_else (prop data "response") (Str (fullResponse v)))
              (or_else (prop data "session_id")
                 (or_else (currentSessionId v) (Str "")))],
           Return)
        else if is_text (prop data "type") "error" then
          ([onError (or_else (prop data "error") (Str "Unknown error"))],
           Return)
        else ([], Next v)
    end
  else ([], Next v).

(** Lines 102 to 123: the loop over the records of one read. *)
Fixpoint for_lines (v : vars) (lines : list string) : list call * flow :=
  match lines with
  | [] => ([], Next v)
  | line :: lines' =>
      match on_line v line with
      | (calls, Return) => (calls, Return)
      | (calls, Next v') =>
          let (calls', f) := for_lines v' lines' in (calls ++ calls', f)
      end
  end.

(** Lines 93 to 124: [while (true)], one turn for each read.  When the
    reader reports the end the loop is left and nothing more is done;
    when a read rejects, the [catch] of line 125 reports it. *)
Fixpoint read_loop (buffer : string) (v : vars) (texts : list string)
  (failure : option thrown) : list call :=
  match texts with
  | [] =>
      match failure with
      | None => []
      | Some e => [onError (catch_message e)]
      end
  | text :: texts' =>
      let (lines, buffer') := feed buffer text in
      match for_lines v lines with
      | (calls, Return) => calls
      | (calls, Next v') => calls ++ read_loop buffer' v' texts' failure
      end
  end.

(** Lines 69 to 73. *)
Definition request_of (question : string) (sessionId : value)
  (conversationId : option string) : request :=
  {| question := question;
     session_id := or_else sessionId Undefined;
     conversation_id := or_undefined conversationId |}.

(** Lines 77 and 78: the message for a response that is not [ok]. *)
Definition http_error (r : response) : call :=
  let error :=
    match json r with
    | Some v => v
    | None => Obj [("detail", Str "Unknown error")]
    end in
  if nullish error then
    onError (catch_message (ErrorObject (TypeError_message "detail")))
  else
    onError (or_else (prop error "detail")
               (Str ("HTTP error! status: " +:+ decimal (status r)))).

(** The variables at the first turn of the loop, lines 84 to 86. *)
Definition initial (sessionId : value) : vars :=
  {| fullResponse := ""; currentSessionId := sessionId |}.

(** [queryAgentStream], lines 55 to 128: the calls it makes, in order.
    The session id is [null] or a text by its type; it is a value here
    because [handleSubmit] passes on what a done record carried.  The
    callbacks are taken to return normally, as the three handlers that
    [handleSubmit] passes do. *)
Definition queryAgentStream (question : string) (sessionId : value)
  (conversationId : option string) : list call :=
  match fetch (request_of question sessionId conversationId) with
  | Rejected e => [onError (catch_message e)]
  | Resolved r =>
      if negb (ok r) then [http_error r]
      else
        match body r with
        | None => [onError (Str "No response body")]
        | Some s =>
            read_loop "" (initial sessionId) (reads s) (failure s)
        end
  end.

(** *** The events of the protocol

    The record of a line as the if-chain of [on_line] sees it: the four
    kinds of payload that have an effect.  Every other line (no marker, a
    payload that does not parse, [null], an unknown [type]) has none. *)

Inductive event : Type :=
| SessionAssigned (session_id : value)
| ContentChunk (content : value)
| Completed (response session_id : value)
| Failed (error : value).

Definition event_of (line : string) : option event :=
  if startsWith line "data: " then
    match JSON_parse (slice 6 line) with
    | None => None
    | Some data =>
        if nullish data then None
        else if is_text (prop data "type") "session" then
          Some (SessionAssigned (prop data "session_id"))
        else if is_text (prop data "type") "chunk" then
          Some (ContentChunk (prop data "content"))
        else if is_text (prop data "type") "done" then
          Some (Completed (prop data "response") (prop data "session_id"))
        else if is_text (prop data "type") "error" then
          Some (Failed (prop data "error"))
        else None
    end
  else None.

(** What [on_line] does for each kind of record. *)
Definition dispatch (v : vars) (e : option event) : list call * flow :=
  match e with
  | None => ([], Next v)
  | Some (SessionAssigned id) =>
      ([], Next {| fullResponse := fullResponse v; currentSessionId := id |})
  | Some (ContentChunk content) =>
      ([onChunk content],
       Next {| fullResponse := fullResponse v +:+ to_string content;
               currentSessionId := currentSessionId v |})
  | Some (Completed response id) =>
      ([onComplete
          (or_else response (Str (fullResponse v)))
          (or_else id (or_else (currentSessionId v) (Str "")))],
       Return)
  | Some (Failed error) =>
      ([onError (or_else error (Str "Unknown error"))], Return)
  end.

(** A line whose record ends the stream. *)
Definition terminal (line : string) : bool :=
  match event_of line with
  | Some (Completed _ _) | Some (Failed _) => true
  | _ => false
  end.

(** A data record whose payload is not valid JSON. *)
Definition malformed (line : string) : bool :=
  startsWith line "data: " &&
  match JSON_parse (slice 6 line) with
  | None => true
  | Some _ => false
  end.

(** The contents of the chunk records among some lines, in order. *)
Fixpoint chunks (lines : list string) : list value :=
  match lines with
  | [] => []
  | line :: lines' =>
      match event_of line with
      | Some (ContentChunk content) => content :: chunks lines'
      | _ => chunks lines'
      end
  end.

(** The session id of the last session record among some lines. *)
Fixpoint assigned (lines : list string) : option value :=
  match lines with
  | [] => None
  | line :: lines' =>
      match assigned lines' with
      | Some id => Some id
      | None =>
          match event_of line with
          | Some (SessionAssigned id) => Some id
          | _ => None
          end
      end
  end.

(** The text that [fullResponse += content] builds from some contents. *)
Definition joined (contents : list value) : string :=
  fold_right (fun content rest => to_string content +:+ rest) "" contents.

(** The variables after lines none of which is terminal. *)
Definition after_lines (v : vars) (lines : list string) : vars :=
  {| fullResponse := fullResponse v +:+ joined (chunks lines);
     currentSessionId :=
       match assigned lines with
       | Some id => id
       | None => currentSessionId v
       end |}.

(** What follows the loop over the records of a stream: nothing after a
    return, and otherwise the end of the body. *)
Definition finish (r : list call * flow) (failure : option thrown)
  : list call :=
  match r with
  | (calls, Return) => calls
  | (calls, Next _) =>
      calls ++
      match failure with
      | None => []
      | Some e => [onError (catch_message e)]
      end
  end.

(** The second argument of [onComplete], line 113, from the id on the
    done record, the id of the last session record before it, if there
    was one, and the id the caller gave. *)
Definition passed_session_id (done_id : value) (last_assigned : option value)
  (sessionId : value) : value :=
  or_else done_id
    (or_else
       match last_assigned with
       | Some id => id
       | None => sessionId
       end
       (Str "")).

(** The request was answered with a success status and the body [s]. *)
Definition streams (question : string) (sessionId : value)
  (conversationId : option string) (s : stream) : Prop :=
  exists r, fetch (request_of question sessionId conversationId) = Resolved r
            /\ ok r = true /\ body r = Some s.

End Orchestrator.

End Stream.

(** ** [ChatInterface]: the handlers that own the session id *)

Module Chat.
Import Js Stream.

(** A message of the list on screen; its [timestamp], which no handler
    reads, is left out. *)
Inductive message_id : Type :=
| NumberId (n : nat)
| TextId (s : string).

Record Message : Type := {
  role : string;
  content : string;
  id : option message_id
}.

(** What the conversation endpoints return, lines 24 to 47 of [api.ts]. *)
Module Conversation.
Record t : Type := {
  id : string;
  user_id : string;
  title : string;
  created_at : string;
  updated_at : string
}.
End Conversation.

Module ConversationMessage.
Record t : Type := {
  id : string;
  conversation_id : string;
  role : string;
  content : string;
  created_at : string
}.
End ConversationMessage.

(** The state of the component (the theme and the folding of the side
    bar, which the handlers below do not touch, are left out). *)
Record state : Type := {
  messages : list Message;
  input : string;
  isLoading : bool;
  sessionId : value;
  isHomePage : bool;
  currentConversationId : option string;
  conversationTitle : string;
  sidebarRefreshTrigger : nat
}.

(** The state at mount, lines 10 to 19. *)
Definition mounted : state :=
  {| messages := []; input := ""; isLoading := false; sessionId := Null;
     isHomePage := true; currentConversationId := None;
     conversationTitle := "New Chat"; sidebarRefreshTrigger := 0 |}.

(** *** Page hide, lines 46 to 78 *)

(** [PerformanceNavigationTiming.type]. *)
Inductive NavigationTimingType : Type :=
| navigate
| reload
| back_forward
| prerender.

Definition is_reload (t : NavigationTimingType) : bool :=
  match t with
  | reload => true
  | _ => false
  end.

(** A request issued with [fetch]. *)
Record http_request : Type := {
  method : string;
  url : string;
  keepalive : bool
}.

(** [process.env.NEXT_PUBLIC_API_URL || 'http://localhost:8000'] *)
Definition api_url (env : option string) : string :=
  match or_undefined env with
  | Some u => u
  | None => "http://localhost:8000"
  end.

(** [handlePageHide], lines 50 to 71, for the session id that the effect
    captured: [persisted] is [e.persisted] and [navEntry] the first
    navigation entry of the page, if there is one. *)
Definition handlePageHide (env : option string) (sessionId : value)
  (persisted : bool) (navEntry : option NavigationTimingType)
  : list http_request :=
  if negb persisted then
    let isReload :=
      match navEntry with
      | Some t => is_reload t
      | None => false
      end in
    if negb isReload then
      [{| method := "DELETE";
          url := api_url env +:+ "/agent/session/" +:+ to_string sessionId;
          keepalive := true |}]
    else []
  else [].

(** The [.catch(() => {})] of line 66: what is left of a rejection of the
    deletion request. *)
Definition deletion_rejection (outcome : option thrown) : option thrown :=
  match outcome with
  | Some _ => None
  | None => None
  end.

(** The effect of lines 47 to 78 keeps the listeners of [pagehide] in
    step with the session id: none while there is no session id, and
    otherwise one, which has captured the id. *)
Definition pagehide_listeners (st : state) : list value :=
  if negb (truthy (sessionId st)) then [] else [sessionId st].

(** A [pagehide] event: every listener runs. *)
Definition on_pagehide (env : option string) (st : state) (persisted : bool)
  (navEntry : option NavigationTimingType) : list http_request :=
  flat_map (fun captured => handlePageHide env captured persisted navEntry)
    (pagehide_listeners st).

(** *** New chat and conversation switch, lines 208 to 247 *)

Definition handleNewChat (st : state) : state :=
  {| messages := [];
     input := input st;
     isLoading := isLoading st;
     sessionId := Null;
     isHomePage := true;
     currentConversationId := None;
     conversationTitle := "New Chat";
     sidebarRefreshTrigger := sidebarRefreshTrigger st |}.

Definition chat_message (msg : ConversationMessage.t) : Message :=
  {| role := ConversationMessage.role msg;
     content := ConversationMessage.content msg;
     id := Some (TextId (ConversationMessage.id msg)) |}.

(** [conversation.title || 'Untitled Chat'] *)
Definition title_or_untitled (c : Conversation.t) : string :=
  if String.eqb (Conversation.title c) "" then "Untitled Chat"
  else Conversation.title c.

(** [handleConversationSelect], from its call to the end of its
    [finally]; [loaded] is what the two requests of [Promise.all] give,
    [None] when either rejects. *)
Definition handleConversationSelect (conversationId : string)
  (loaded : option (Conversation.t * list ConversationMessage.t))
  (st : state)
  : state :=
  match loaded with
  | Some (conversation, conversationMessages) =>
      {| messages := map chat_message conversationMessages;
         input := input st;
         isLoading := false;
         sessionId := Null;
         isHomePage := false;
         currentConversationId := Some conversationId;
         conversationTitle := title_or_untitled conversation;
         sidebarRefreshTrigger := sidebarRefreshTrigger st |}
  | None =>
      {| messages := messages st;
         input := input st;
         isLoading := false;
         sessionId := sessionId st;
         isHomePage := isHomePage st;
         currentConversationId := Some conversationId;
         conversationTitle := conversationTitle st;
         sidebarRefreshTrigger := sidebarRefreshTrigger st |}
  end.

(** *** Submitting a question, lines 80 to 194 *)

Section Submit.

(** The host's [String.prototype.trim]. *)
Variable trim : string -> string.

(** The host's [text.length], which counts UTF-16 code units, and its
    [text.substring(0, n)], which keeps the first [n] of them. *)
Variable code_units : string -> nat.
Variable first_units : nat -> string -> string.

Variable JSON_parse : string -> option value.
Variable fetch : request -> fetched.
Variable TypeError_message : string -> string.

(** The arguments of the call to [queryAgentStream] of line 142. *)
Record query : Type := {
  query_question : string;
  query_sessionId : value;
  query_conversationId : option string
}.

(** [!input.trim() || isLoading], line 83. *)
Definition refused (st : state) : bool :=
  String.eqb (trim (input st)) "" || isLoading st.

Definition has_id (x : option string) : bool :=
  match or_undefined x with
  | Some _ => true
  | None => false
  end.

(** Lines 92 to 102: the conversation id of the turn; [created] is the
    [id] of the conversation that [createConversation] returns, [None]
    when it rejects. *)
Definition conversation_of (st : state) (created : option string)
  : option string :=
  if has_id (currentConversationId st) then currentConversationId st
  else
    match created with
    | Some new_id => Some new_id
    | None => currentConversationId st
    end.

(** The call that a submit in state [st] makes, if it makes one. *)
Definition query_of (st : state) (created : option string) : option query :=
  if refused st then None
  else Some {| query_question := trim (input st);
               query_sessionId := sessionId st;
               query_conversationId := conversation_of st created |}.

(** Lines 106 to 108. *)
Definition truncatedTitle (st : state) : string :=
  if Nat.ltb 50 (code_units (trim (input st)))
  then first_units 50 (trim (input st)) +:+ "..."
  else trim (input st).

(** Line 105. *)
Definition renames (st : state) (created : option string) : bool :=
  has_id (conversation_of st created) &&
  Nat.eqb (List.length (messages st)) 0 &&
  String.eqb (conversationTitle st) "New Chat".

(** Lines 122 to 139: the state when the stream is opened; [now] is
    [Date.now()]. *)
Definition opened (st : state) (created : option string) (now : nat)
  : state :=
  {| messages :=
       (messages st ++
        [{| role := "user"; content := trim (input st); id := None |}]) ++
        [{| role := "assistant"; content := "";
            id := Some (NumberId now) |}];
     input := "";
     isLoading := true;
     sessionId := sessionId st;
     isHomePage := false;
     currentConversationId := conversation_of st created;
     conversationTitle := conversationTitle st;
     sidebarRefreshTrigger := sidebarRefreshTrigger st |}.

(** The change that both [setMessages] of the callbacks make: the last
    message, if it is the assistant's, gets a new content. *)
Definition on_last (f : string -> string) (ms : list Message)
  : list Message :=
  match rev ms with
  | [] => ms
  | lastMessage :: before =>
      if String.eqb (role lastMessage) "assistant"
      then rev before ++
           [{| role := role lastMessage;
               content := f (content lastMessage);
               id := id lastMessage |}]
      else ms
  end.

Definition with_messages (ms : list Message) (st : state) : state :=
  {| messages := ms;
     input := input st;
     isLoading := isLoading st;
     sessionId := sessionId st;
     isHomePage := isHomePage st;
     currentConversationId := currentConversationId st;
     conversationTitle := conversationTitle st;
     sidebarRefreshTrigger := sidebarRefreshTrigger st |}.

(** [setSessionId(...)] when wanted, then [setIsLoading(false)]. *)
Definition settle (new_session : option value) (st : state) : state :=
  {| messages := messages st;
     input := input st;
     isLoading := false;
     sessionId :=
       match new_session with
       | Some s => s
       | None => sessionId st
       end;
     isHomePage := isHomePage st;
     currentConversationId := currentConversationId st;
     conversationTitle := conversationTitle st;
     sidebarRefreshTrigger := sidebarRefreshTrigger st |}.

(** The three callbacks of lines 145 to 179; [captured] is the session
    id of the render in which the question was submitted. *)
Definition handle (captured : value) (st : state) (c : call) : state :=
  match c with
  | onChunk chunk =>
      with_messages
        (on_last (fun text => text +:+ to_string chunk) (messages st)) st
  | onComplete _ newSessionId =>
      settle
        (if negb (truthy captured) && truthy newSessionId
         then Some newSessionId else None) st
  | onError error =>
      settle None
        (with_messages
           (on_last (fun _ => "Error: " +:+ to_string error) (messages st))
           st)
  end.

(** The [then] of line 112, when the title update succeeds. *)
Definition retitled (title : string) (st : state) : state :=
  {| messages := messages st;
     input := input st;
     isLoading := isLoading st;
     sessionId := sessionId st;
     isHomePage := isHomePage st;
     currentConversationId := currentConversationId st;
     conversationTitle := title;
     sidebarRefreshTrigger := sidebarRefreshTrigger st + 1 |}.

(** [handleSubmit] from the event to the end of the stream; [title_saved]
    tells whether [updateConversationTitle] resolves.  Its [then] writes
    fields that the callbacks of the stream leave alone, so that the
    moment at which it runs does not show in the result. *)
Definition handleSubmit (created : option string) (title_saved : bool)
  (now : nat) (st : state) : state :=
  match query_of st created with
  | None => st
  | Some q =>
      let calls :=
        queryAgentStream JSON_parse fetch TypeError_message
          (query_question q) (query_sessionId q) (query_conversationId q) in
      let st' := fold_left (handle (sessionId st)) calls (opened st created now) in
      if renames st created && title_saved
      then retitled (truncatedTitle st) st'
      else st'
  end.

End Submit.

End Chat.

(** ** A sample of the wire format

    The payloads used in the examples, with a parser that knows exactly
    these texts: on each of them it returns what [JSON.parse] returns,
    and the one text of the examples that it refuses is not JSON. *)

Module Sample.
Import Frame Js Stream.

Definition quote : string := String "034"%char EmptyString.

Definition quoted (s : string) : string := quote +:+ s +:+ quote.

Fixpoint members (fields : list (string * string)) : string :=
  match fields with
  | [] => ""
  | (k, x) :: fields' =>
      quoted k +:+ ":" +:+ quoted x +:+
      match fields' with
      | [] => ""
      | _ :: _ => "," +:+ members fields'
      end
  end.

(** The text of an object whose fields are texts without quotes or
    escapes. *)
Definition object_text (fields : list (string * string)) : string :=
  "{" +:+ members fields +:+ "}".

Definition object_value (fields : list (string * string)) : value :=
  Obj (map (fun kx => (fst kx, Str (snd kx))) fields).

Definition known : list (list (string * string)) :=
  [ [("type", "session"); ("session_id", "S1")];
    [("type", "session")];
    [("type", "chunk"); ("content", "A")];
    [("type", "chunk"); ("content", "B")];
    [("type", "done")];
    [("type", "done"); ("response", "AB"); ("session_id", "S2")];
    [("type", "error"); ("error", "boom")] ].

Definition parse (text : string) : option value :=
  match find (fun fields => String.eqb (object_text fields) text) known with
  | Some fields => Some (object_value fields)
  | None => None
  end.

(** A data record with the given fields. *)
Definition record (fields : list (string * string)) : string :=
  "data: " +:+ object_text fields.

(** A data record whose payload is cut short. *)
Definition broken : string := "data: {" +:+ quoted "type" +:+ ":".

Definition session_S1 := record [("type", "session"); ("session_id", "S1")].
Definition session_bare := record [("type", "session")].
Definition chunk_A := record [("type", "chunk"); ("content", "A")].
Definition chunk_B := record [("type", "chunk"); ("content", "B")].
Definition done_bare := record [("type", "done")].
Definition done_full :=
  record [("type", "done"); ("response", "AB"); ("session_id", "S2")].
Definition error_boom := record [("type", "error"); ("error", "boom")].

(** A network that answers every request with the same response. *)
Definition answer (r : response) : request -> fetched :=
  fun _ => Resolved r.

(** A success response whose body arrives in the given reads and then
    ends. *)
Definition ok_body (texts : list string) : response :=
  {| status := 200; json := None;
     body := Some {| reads := texts; failure := None |} |}.

(** The message of the [TypeError] in one engine. *)
Definition engine_message (name : string) : string :=
  "Cannot read properties of null (reading '" +:+ name +:+ "')".

Definition run (texts : list string) (sessionId : value) : list call :=
  queryAgentStream parse (answer (ok_body texts)) engine_message
    "question" sessionId None.

(** The body of the same response in one read. *)
Definition whole (texts : list string) : stream :=
  {| reads := texts; failure := None |}.

(** Two chunks and a done record without response, in one read. *)
Definition ab_done : list string :=
  [chunk_A +:+ separator +:+ chunk_B +:+ separator +:+ done_bare +:+
   separator].

(** A chunk, an error and one more chunk in the same read. *)
Definition a_boom_b : list string :=
  [chunk_A +:+ separator +:+ error_boom +:+ separator +:+ chunk_B +:+
   separator].

(** A session record without id, then a done record without id. *)
Definition bare_session_done : list string :=
  [session_bare +:+ separator +:+ done_bare +:+ separator].

(** A session record with its id, then a done record without id. *)
Definition session_done : list string :=
  [session_S1 +:+ separator; done_bare +:+ separator].

(** A broken record between two chunks. *)
Definition a_broken_b : list string :=
  [chunk_A +:+ separator +:+ broken; separator +:+ chunk_B +:+ separator].

(** A body that ends after one chunk. *)
Definition a_then_end : list string := [chunk_A +:+ separator].

(** A gateway's answer: status 502 and a body that is not JSON. *)
Definition bad_gateway : response :=
  {| status := 502; json := None; body := Some (whole a_then_end) |}.

(** Two records whose first separator is parted between two reads. *)
Definition parted_reads : list string :=
  [chunk_A +:+ String LF ""; String LF "" +:+ chunk_B; separator].

(** A record, then the beginning of another, in three reads. *)
Definition cut_reads : list string :=
  [chunk_A +:+ String LF ""; String LF "data"; ": {"].

(** A component in the middle of a conversation: a session is active
    and the next question is typed. *)
Definition in_session : Chat.state :=
  {| Chat.messages := [];
     Chat.input := "next question";
     Chat.isLoading := false;
     Chat.sessionId := Str "S1";
     Chat.isHomePage := false;
     Chat.currentConversationId := Some "c1";
     Chat.conversationTitle := "First";
     Chat.sidebarRefreshTrigger := 0 |}.

(** The first question of a visit. *)
Definition first_question : Chat.state :=
  {| Chat.messages := [];
     Chat.input := "hello";
     Chat.isLoading := false;
     Chat.sessionId := Null;
     Chat.isHomePage := true;
     Chat.currentConversationId := None;
     Chat.conversationTitle := "New Chat";
     Chat.sidebarRefreshTrigger := 0 |}.

(** The component after [c2] was selected in the side bar and its
    requests rejected. *)
Definition after_failed_switch : Chat.state :=
  Chat.handleConversationSelect "c2" None in_session.

(** [trim] on the inputs above, which have no white space at their
    ends. *)
Definition trimmed (s : string) : string := s.

(** A question of more than fifty characters, the first of a visit. *)
Definition long_question : Chat.state :=
  {| Chat.messages := [];
     Chat.input :=
       "What did the team decide about the budget in the last meeting?";
     Chat.isLoading := false;
     Chat.sessionId := Null;
     Chat.isHomePage := true;
     Chat.currentConversationId := None;
     Chat.conversationTitle := "New Chat";
     Chat.sidebarRefreshTrigger := 0 |}.

(** [length] and [substring(0, n)] on the inputs above, which are ASCII:
    every character is one code unit. *)
Definition units (s : string) : nat := String.length s.

Definition first (n : nat) (s : string) : string := substring 0 n s.

(** A submit against the sample network. *)
Definition submit (texts : list string) (st : Chat.state) : Chat.state :=
  Chat.handleSubmit trimmed units first parse (answer (ok_body texts))
    engine_message (Some "c1") true 0 st.

End Sample.

(** ** Views of the protocol used by the laws below *)

Module Protocol.
Import Frame Js Stream.

Section Views.

Variable JSON_parse : string -> option value.

(** A line that [on_line] acts on. *)
Definition has_event (line : string) : bool :=
  match event_of JSON_parse line with
  | Some _ => true
  | None => false
  end.

End Views.

End Protocol.

(** ** More samples of the wire *)

Module Wire.
Import Frame Js Stream.

(** A success response whose body breaks after the given reads: the next
    read rejects. *)
Definition breaking (texts : list string) : stream :=
  {| reads := texts; failure := Some (ErrorObject "network error") |}.

Definition ok_breaking (texts : list string) : response :=
  {| status := 200; json := None; body := Some (breaking texts) |}.

(** A chunk, then a done record that carries its own response. *)
Definition a_then_full_done : list string :=
  [Sample.chunk_A +:+ separator; Sample.done_full +:+ separator].

(** A broken record between two chunks, then a done record without
    response. *)
Definition a_broken_b_done : list string :=
  [Sample.chunk_A +:+ separator +:+ Sample.broken;
   separator +:+ Sample.chunk_B +:+ separator +:+ Sample.done_bare +:+
   separator].

(** A comment line of the event stream, as servers send to keep the
    connection open. *)
Definition ping : string := ": ping".

(** A chunk between two comment lines. *)
Definition pings_around_a : list string :=
  [ping +:+ separator +:+ Sample.chunk_A +:+ separator +:+ ping +:+
   separator].

End Wire.

(** ** [auth.ts]: the token store *)

Module Auth.
Import Js Stream.

(** What an asynchronous function gives: a value, or a rejection. *)
Inductive outcome (A : Type) : Type :=
| Returned (a : A)
| Threw (e : thrown).

Arguments Returned {A} a.
Arguments Threw {A} e.

(** [localStorage]: what [getItem] gives for each key. *)
Definition Storage : Type := string -> option string.

Definition getItem (key : string) (store : Storage) : option string :=
  store key.

Definition setItem (key text : string) (store : Storage) : Storage :=
  fun k => if String.eqb k key then Some text else store k.

Definition removeItem (key : string) (store : Storage) : Storage :=
  fun k => if String.eqb k key then None else store k.

Definition ACCESS_TOKEN_KEY : string := "supabase_access_token".
Definition USER_KEY : string := "supabase_user".

Section Authenticate.

(** [JSON.stringify] and [JSON.parse], and the messages of the errors
    that the host raises. *)
Variable JSON_stringify : value -> string.
Variable JSON_parse : string -> option value.
Variable TypeError_message : string -> string.
Variable SyntaxError_message : string.

(** [data.session?.access_token] *)
Definition access_token (data : value) : value :=
  if nullish (prop data "session") then Undefined
  else prop (prop data "session") "access_token".

(** Lines 43 to 48 and 70 to 75: what a successful answer leaves in the
    store. *)
Definition remember (data : value) (store : Storage) : Storage :=
  let store' :=
    if truthy (access_token data)
    then setItem ACCESS_TOKEN_KEY (to_string (access_token data)) store
    else store in
  if truthy (prop data "user")
  then setItem USER_KEY (JSON_stringify (prop data "user")) store'
  else store'.

(** The common body of [signUp] (lines 26 to 51) and [signIn] (lines 53
    to 78), which differ in the two texts of their error: [unparsed] is
    the detail put in the place of an error body that is not JSON,
    [fallback] the message for an error body without detail.  [answer]
    is what [fetch] gives; the store is the one of the browser. *)
Definition authenticate (unparsed fallback : string) (answer : fetched)
  (store : Storage) : outcome value * Storage :=
  match answer with
  | Rejected e => (Threw e, store)
  | Resolved r =>
      if negb (ok r) then
        let error :=
          match json r with
          | Some v => v
          | None => Obj [("detail", Str unparsed)]
          end in
        if nullish error
        then (Threw (ErrorObject (TypeError_message "detail")), store)
        else
          (Threw
             (ErrorObject
                (to_string (or_else (prop error "detail") (Str fallback)))),
           store)
      else
        match json r with
        | None => (Threw (ErrorObject SyntaxError_message), store)
        | Some data =>
            if nullish data
            then (Threw (ErrorObject (TypeError_message "session")), store)
            else (Returned data, remember data store)
        end
  end.

Definition signUp : fetched -> Storage -> outcome value * Storage :=
  authenticate "Sign up failed" "Sign up failed".

Definition signIn : fetched -> Storage -> outcome value * Storage :=
  authenticate "Sign in failed" "Invalid email or password".

(** Lines 80 to 83. *)
Definition signOut (store : Storage) : Storage :=
  removeItem USER_KEY (removeItem ACCESS_TOKEN_KEY store).

(** Lines 85 to 88; [window] is [None] where there is no [window]. *)
Definition getAccessToken (window : option Storage) : option string :=
  match window with
  | None => None
  | Some store => getItem ACCESS_TOKEN_KEY store
  end.

(** Lines 90 to 99. *)
Definition getCurrentUser (window : option Storage) : value :=
  match window with
  | None => Null
  | Some store =>
      match getItem USER_KEY store with
      | None => Null
      | Some userStr =>
          if String.eqb userStr "" then Null
          else
            match JSON_parse userStr with
            | Some user => user
            | None => Null
            end
      end
  end.

(** Lines 101 to 103. *)
Definition isAuthenticated (window : option Storage) : bool :=
  match getAccessToken window with
  | Some _ => true
  | None => false
  end.

(** Lines 106 to 115: the headers, in the order of their keys. *)
Definition getAuthHeaders (window : option Storage)
  : list (string * string) :=
  ("Content-Type", "application/json") ::
  match getAccessToken window with
  | Some token =>
      if String.eqb token "" then []
      else [("Authorization", "Bearer " +:+ token)]
  | None => []
  end.

End Authenticate.

End Auth.

(** ** [api.ts]: the requests to the conversation endpoints *)

Module Api.
Import Js Stream Auth.

(** [getAuthHeaders] of [api.ts], lines 249 to 261, which reads the
    store by itself. *)
Definition getAuthHeaders (window : option Storage)
  : list (string * string) :=
  let token :=
    match window with
    | Some store => getItem "supabase_access_token" store
    | None => None
    end in
  ("Content-Type", "application/json") ::
  match token with
  | Some t =>
      if String.eqb t "" then [] else [("Authorization", "Bearer " +:+ t)]
  | None => []
  end.

Section Rest.

Variable TypeError_message : string -> string.
Variable SyntaxError_message : string.

(** [throw new Error(error.detail || fallback)] after
    [response.json().catch(() => ({ detail: fallback }))]. *)
Definition error_of (fallback : string) (r : response) : thrown :=
  let error :=
    match json r with
    | Some v => v
    | None => Obj [("detail", Str fallback)]
    end in
  if nullish error then ErrorObject (TypeError_message "detail")
  else ErrorObject (to_string (or_else (prop error "detail") (Str fallback))).

(** [getConversations], lines 159 to 171, from the answer of [fetch]. *)
Definition getConversations (answer : fetched) : outcome value :=
  match answer with
  | Rejected e => Threw e
  | Resolved r =>
      if negb (ok r) then Threw (error_of "Failed to fetch conversations" r)
      else
        match json r with
        | Some v => Returned v
        | None => Threw (ErrorObject SyntaxError_message)
        end
  end.

(** [deleteConversation], lines 202 to 212. *)
Definition deleteConversation (answer : fetched) : outcome unit :=
  match answer with
  | Rejected e => Threw e
  | Resolved r =>
      if negb (ok r) then Threw (error_of "Failed to delete conversation" r)
      else Returned tt
  end.

End Rest.

End Api.

(** ** [Sidebar.tsx]: the list of conversations *)

Module Sidebar.
Import Js Stream Auth.

Record state : Type := {
  conversations : list Chat.Conversation.t;
  isLoading : bool;
  error : option string;
  menuOpen : option string
}.

(** [s.includes(part)] *)
Fixpoint includes (s part : string) : bool :=
  prefix part s ||
  match s with
  | EmptyString => false
  | String _ s' => includes s' part
  end.

(** [err instanceof Error ? err.message : 'Failed to load conversations'] *)
Definition errorMessage (err : thrown) : string :=
  match err with
  | ErrorObject message => message
  | OtherThrown => "Failed to load conversations"
  end.

(** The test that sends the user to the sign-in page. *)
Definition asks_to_sign_in (message : string) : bool :=
  includes message "401" || includes message "Unauthorized" ||
  includes message "Invalid or expired token" || includes message "Token".

Section Load.

(** The answer of the endpoint read as the list that its type says it
    is. *)
Variable as_conversations : value -> list Chat.Conversation.t.

(** [loadConversations] to the end of its [finally]; [result] is what
    [await getConversations(50)] gives.  The second component is the
    page that [window.location.href] is set to, if it is set. *)
Definition loadConversations (result : outcome value) (st : state)
  : state * option string :=
  match result with
  | Returned convs =>
      ({| conversations := as_conversations convs;
          isLoading := false;
          error := None;
          menuOpen := menuOpen st |}, None)
  | Threw err =>
      if asks_to_sign_in (errorMessage err) then
        ({| conversations := conversations st;
            isLoading := false;
            error := None;
            menuOpen := menuOpen st |}, Some "/signin")
      else
        ({| conversations := conversations st;
            isLoading := false;
            error := Some (errorMessage err);
            menuOpen := menuOpen st |}, None)
  end.

End Load.

(** [handleDeleteConversation]: [confirmed] is the answer to [confirm],
    [deleted] what [await deleteConversation(conversationId)] gives.
    [onNewChat] is [handleNewChat] of the chat, whose current
    conversation the side bar receives. *)
Definition handleDeleteConversation (conversationId : string)
  (confirmed : bool) (deleted : outcome unit)
  (side : state) (chat : Chat.state) : state * Chat.state :=
  if negb confirmed then (side, chat)
  else
    match deleted with
    | Returned _ =>
        ({| conversations :=
              filter
                (fun conv =>
                   negb (String.eqb (Chat.Conversation.id conv)
                           conversationId))
                (conversations side);
            isLoading := isLoading side;
            error := error side;
            menuOpen := menuOpen side |},
         match Chat.currentConversationId chat with
         | Some current =>
             if String.eqb current conversationId
             then Chat.handleNewChat chat else chat
         | None => chat
         end)
    | Threw _ => (side, chat)
    end.

(** An integer in a template literal. *)
Definition integer (z : Z) : string :=
  NilEmpty.string_of_int (Z.to_int z).

Section Dates.

(** [new Date(text).getTime()], in milliseconds, [None] for a text that
    is no date; and [toLocaleDateString] of such a date. *)
Variable Date_parse : string -> option Z.
Variable toLocaleDateString : option Z -> string.

(** [formatDate]; [now] is [new Date().getTime()].  The times are whole
    numbers of milliseconds, for which the division and [Math.floor] of
    the host give the whole quotient rounded down; for a text that is no
    date every comparison fails. *)
Definition formatDate (dateString : string) (now : Z) : string :=
  match Date_parse dateString with
  | None => toLocaleDateString None
  | Some date =>
      let diffMs := (now - date)%Z in
      let diffDays := (diffMs / (1000 * 60 * 60 * 24))%Z in
      if Z.eqb diffDays 0 then "Today"
      else if Z.eqb diffDays 1 then "Yesterday"
      else if Z.ltb diffDays 7 then integer diffDays +:+ " days ago"
      else toLocaleDateString (Some date)
  end.

End Dates.

End Sidebar.

(** ** The sign-up page and the home page *)

Module Pages.
Import Js Stream Auth.

Record form : Type := {
  email : string;
  password : string;
  confirmPassword : string;
  error : string;
  loading : bool
}.

Section SignUp.

(** The host's [text.length], which counts UTF-16 code units. *)
Variable code_units : string -> nat.

Variable JSON_stringify : value -> string.
Variable TypeError_message : string -> string.
Variable SyntaxError_message : string.

(** The network: the answer to a sign-up with an email and a password. *)
Variable network : string -> string -> fetched.

(** [setError(message)]. *)
Definition with_error (message : string) (f : form) : form :=
  {| email := email f;
     password := password f;
     confirmPassword := confirmPassword f;
     error := message;
     loading := loading f |}.

(** [setError(message)] in the [try], then [setLoading(false)]. *)
Definition answered (message : string) (f : form) : form :=
  {| email := email f;
     password := password f;
     confirmPassword := confirmPassword f;
     error := message;
     loading := false |}.

(** [handleSubmit] of the sign-up page to the end of its [finally]: the
    form, the store, and the page that [router.push] is given, if it is
    called. *)
Definition handleSubmit (f : form) (store : Storage)
  : form * Storage * option string :=
  if Nat.ltb (code_units (password f)) 6 then
    (with_error "Password must be at least 6 characters" f, store, None)
  else if negb (String.eqb (password f) (confirmPassword f)) then
    (with_error "Passwords do not match" f, store, None)
  else
    match signUp JSON_stringify TypeError_message SyntaxError_message
            (network (email f) (password f)) store with
    | (Returned _, store') => (answered "" f, store', Some "/")
    | (Threw err, store') =>
        (answered
           match err with
           | ErrorObject message => message
           | OtherThrown => "Sign up failed"
           end f,
         store', None)
    end.

End SignUp.

(** The effect of the home page, in the browser and at its first run:
    whether the chat is shown, and the page that [router.replace] is
    given, if it is called. *)
Definition home (store : Storage) (pathname : string)
  : bool * option string :=
  let auth := isAuthenticated (Some store) in
  (auth,
   if negb auth && String.eqb pathname "/" then Some "/signin" else None).

End Pages.

(** ** Sample accounts *)

Module Accounts.
Import Js Stream Auth.

Definition user_fields : list (string * string) :=
  [("id", "u1"); ("email", "ann@example.org")].

Definition user : value := Sample.object_value user_fields.

(** The text of the sample user, and the two host functions on it: the
    user is the only value that the samples print, and its text the only
    text that they parse. *)
Definition user_text : string := Sample.object_text user_fields.

Definition print (v : value) : string := user_text.

Definition parse (text : string) : option value :=
  if String.eqb text user_text then Some user else None.

(** An answer with a user and a session. *)
Definition welcome : response :=
  {| status := 200;
     json :=
       Some (Obj [("status", Str "success"); ("user", user);
                  ("session",
                   Obj [("access_token", Str "T1");
                        ("refresh_token", Str "R1")])]);
     body := None |}.

(** An answer with a user whose email is still to be confirmed: there is
    no session yet. *)
Definition unconfirmed : response :=
  {| status := 200;
     json :=
       Some (Obj [("status", Str "success"); ("user", user);
                  ("session", Null)]);
     body := None |}.

(** A refusal whose body is not JSON. *)
Definition unauthorized : response :=
  {| status := 401; json := None; body := None |}.

Definition empty : Storage := fun _ => None.

(** The store that another user's session left behind. *)
Definition stale : Storage := setItem ACCESS_TOKEN_KEY "T0" empty.

Definition syntax_error : string := "Unexpected end of JSON input".

Definition new_account : Pages.form :=
  {| Pages.email := "ann@example.org";
     Pages.password := "secret1";
     Pages.confirmPassword := "secret1";
     Pages.error := "";
     Pages.loading := false |}.

Definition short_password : Pages.form :=
  {| Pages.email := "ann@example.org";
     Pages.password := "abc";
     Pages.confirmPassword := "abc";
     Pages.error := "";
     Pages.loading := false |}.

Definition conversation (name : string) : Chat.Conversation.t :=
  {| Chat.Conversation.id := name;
     Chat.Conversation.user_id := "u1";
     Chat.Conversation.title := name;
     Chat.Conversation.created_at := "2025-01-01";
     Chat.Conversation.updated_at := "2025-01-02" |}.

Definition listed : Sidebar.state :=
  {| Sidebar.conversations :=
       [conversation "c1"; conversation "c2"; conversation "c3"];
     Sidebar.isLoading := false;
     Sidebar.error := None;
     Sidebar.menuOpen := Some "c1" |}.

End Accounts.

(** ** The guarantees as the specification words them *)

Module AsStated.
Import Frame Js Stream.

(** Zero or more [onChunk], then exactly one [onComplete] or [onError]. *)
Definition chunks_then_one_terminal (calls : list call) : Prop :=
  exists contents closing,
    calls = map onChunk contents ++ [closing] /\
    is_terminal_call closing = true.

(** The session id of a completion by precedence: the id on the done
    record, else the id of the last session record, else the id the
    caller gave, else the empty text. *)
Definition session_id_by_precedence (done_id : value)
  (last_assigned : option value) (sessionId : value) : value :=
  or_else done_id
    (or_else
       match last_assigned with
       | Some id => id
       | None => Undefined
       end
       (or_else sessionId (Str ""))).

Definition completion_follows_precedence : Prop :=
  forall JSON_parse fetch TypeError_message question sessionId conversationId
         s before line after response id,
    streams fetch question sessionId conversationId s ->
    fst (decode "" (reads s)) = before ++ line :: after ->
    forallb (fun l => negb (terminal JSON_parse l)) before = true ->
    event_of JSON_parse line = Some (Completed response id) ->
    exists full,
      queryAgentStream JSON_parse fetch TypeError_message
        question sessionId conversationId =
      map onChunk (chunks JSON_parse before) ++
      [onComplete full
         (session_id_by_precedence id (assigned JSON_parse before)
            sessionId)].

(** The message for a status that is not a success: the detail that the
    server sent, or the generic message with the status. *)
Definition error_status_message : Prop :=
  forall JSON_parse fetch TypeError_message question sessionId conversationId
         r,
    fetch (request_of question sessionId conversationId) = Resolved r ->
    ok r = false ->
    exists message,
      queryAgentStream JSON_parse fetch TypeError_message
        question sessionId conversationId = [onError message] /\
      ((exists sent, json r = Some sent /\ message = prop sent "detail") \/
       message = Str ("HTTP error! status: " +:+ decimal (status r))).

End AsStated.

(** * Properties *)

Module FrameFacts.
Import Frame.

Lemma append_empty_r (s : string) : s +:+ "" = s.
Proof. induction s as [|c s IH]; simpl; [reflexivity | now rewrite IH]. Qed.

Lemma append_assoc (a b c : string) : (a +:+ b) +:+ c = a +:+ (b +:+ c).
Proof. induction a as [|x a IH]; simpl; [reflexivity | now rewrite IH]. Qed.

(** Induction that follows the two-character window of [split]. *)
Lemma string_window_ind (P : string -> Prop) :
  P EmptyString ->
  (forall c, P (String c EmptyString)) ->
  (forall c c' s, P s -> P (String c' s) -> P (String c (String c' s))) ->
  forall s, P s.
Proof.
  intros H0 H1 H2.
  assert (both : forall s, P s /\ forall c, P (String c s)).
  { induction s as [|c' s [IHs IHc]].
    - split; [exact H0 | exact H1].
    - split; [apply IHc | intros c; apply H2; [exact IHs | apply IHc]]. }
  intros s. apply both.
Qed.

Lemma split_window (c c' : ascii) (s : string) :
  split (String c (String c' s)) =
  if is_LF c && is_LF c' then EmptyString :: split s
  else push c (split (String c' s)).
Proof. reflexivity. Qed.

Lemma push_nonempty (c : ascii) (l : list string) : push c l <> [].
Proof. destruct l; discriminate. Qed.

Lemma split_nonempty (s : string) : split s <> [].
Proof.
  destruct s as [|c [|c' s]]; try discriminate.
  rewrite split_window.
  destruct (is_LF c && is_LF c'); [discriminate | apply push_nonempty].
Qed.

Lemma pop_cons (p : string) (l : list string) :
  l <> [] -> pop (p :: l) = pop l.
Proof. destruct l; [contradiction | reflexivity]. Qed.

Lemma popped_cons (p : string) (l : list string) :
  l <> [] -> popped (p :: l) = p :: popped l.
Proof. destruct l; [contradiction | reflexivity]. Qed.

Lemma pop_app (l1 l2 : list string) :
  l2 <> [] -> pop (l1 ++ l2) = pop l2.
Proof.
  intros H. induction l1 as [|p l1 IH]; [reflexivity|].
  simpl app. rewrite pop_cons; [exact IH|].
  destruct l1; simpl; [exact H | discriminate].
Qed.

Lemma popped_app (l1 l2 : list string) :
  l2 <> [] -> popped (l1 ++ l2) = l1 ++ popped l2.
Proof.
  intros H. induction l1 as [|p l1 IH]; [reflexivity|].
  simpl app. rewrite popped_cons; [now rewrite IH|].
  destruct l1; simpl; [exact H | discriminate].
Qed.

(** A text that splits into one piece is that piece. *)
Lemma split_single (s q : string) : split s = [q] -> q = s.
Proof.
  revert q. induction s as [| c | c c' s IHs IHt] using string_window_ind;
    intros q H.
  - now inversion H.
  - now inversion H.
  - rewrite split_window in H. destruct (is_LF c && is_LF c').
    + pose proof (split_nonempty s) as Hne.
      destruct (split s); [contradiction | discriminate].
    + destruct (split (String c' s)) as [|p [|p' l]] eqn:E; simpl in H.
      * now apply split_nonempty in E.
      * inversion H. now rewrite (IHt p eq_refl).
      * discriminate.
Qed.

Lemma settled_empty : settled EmptyString.
Proof. reflexivity. Qed.

Lemma pop_split_settled (s : string) : settled (pop (split s)).
Proof.
  induction s as [| c | c c' s IHs IHt] using string_window_ind.
  - reflexivity.
  - reflexivity.
  - rewrite split_window. destruct (is_LF c && is_LF c') eqn:W.
    + rewrite pop_cons by apply split_nonempty. exact IHs.
    + destruct (split (String c' s)) as [|p [|p' l]] eqn:E.
      * now apply split_nonempty in E.
      * apply split_single in E as Ep. subst p. cbn [push pop last].
        unfold settled. now rewrite split_window, W, E.
      * cbn [push]. rewrite pop_cons by discriminate.
        rewrite <- (pop_cons p) by discriminate. exact IHt.
Qed.

(** Splitting a text that arrives in two parts: the pieces closed in the
    first part stand, and the scan goes on from the open piece. *)
Lemma split_app (a b : string) :
  split (a +:+ b) = popped (split a) ++ split (pop (split a) +:+ b).
Proof.
  induction a as [| c | c c' s IHs IHt] using string_window_ind.
  - reflexivity.
  - reflexivity.
  - destruct (split (String c (String c' s))) as [|q [|q' l]] eqn:E.
    + now apply split_nonempty in E.
    + apply split_single in E. now subst q.
    + rewrite split_window in E. cbn [append]. rewrite split_window.
      destruct (is_LF c && is_LF c') eqn:W.
      * rewrite IHs. rewrite <- E.
        rewrite popped_cons, pop_cons by apply split_nonempty.
        reflexivity.
      * cbn [append] in IHt. rewrite IHt.
        destruct (split (String c' s)) as [|p [|p' l']] eqn:Et;
          cbn [push] in E; try discriminate.
        rewrite <- E.
        rewrite !popped_cons by discriminate.
        rewrite !pop_cons by discriminate. reflexivity.
Qed.

Lemma no_blank_line_split (t : string) :
  has_blank_line t = false -> split t = [t].
Proof.
  induction t as [| c | c c' s IHs IHt] using string_window_ind; intros H.
  - reflexivity.
  - reflexivity.
  - rewrite split_window. cbn [has_blank_line] in H.
    apply orb_false_elim in H as [W H]. rewrite W.
    now rewrite (IHt H).
Qed.

Lemma split_record (r rest : string) :
  well_formed r = true ->
  split (r +:+ separator +:+ rest) = r :: split rest.
Proof.
  unfold well_formed. rewrite negb_true_iff.
  induction r as [|c r IH]; intros H.
  - reflexivity.
  - destruct r as [|c' r].
    + cbn [append has_blank_line] in H. rewrite orb_false_r in H.
      cbn [append separator]. rewrite split_window.
      replace (is_LF LF) with true in * by reflexivity.
      rewrite andb_true_r in H. rewrite H. cbn [andb].
      rewrite split_window. reflexivity.
    + cbn [append has_blank_line] in H.
      apply orb_false_elim in H as [W H].
      cbn [append]. rewrite split_window, W.
      cbn [append] in IH. rewrite (IH H). reflexivity.
Qed.

Lemma received_app (xs ys : list string) :
  received (xs ++ ys) = received xs +:+ received ys.
Proof.
  induction xs as [|x xs IH]; [reflexivity|].
  cbn [app received fold_right]. fold (received (xs ++ ys)).
  fold (received xs). now rewrite IH, append_assoc.
Qed.

Lemma split_framed (records : list string) (tail : string) :
  forallb well_formed records = true ->
  split (framed records +:+ tail) = records ++ split tail.
Proof.
  induction records as [|r rs IH]; intros H.
  - reflexivity.
  - cbn [forallb] in H. apply andb_prop in H as [Hr Hrs].
    unfold framed in *. cbn [map received fold_right].
    fold (received (map (fun r0 => r0 +:+ separator) rs)).
    rewrite !append_assoc, split_record by exact Hr.
    now rewrite (IH Hrs).
Qed.

(** The loop yields what one split of the whole text yields: the cutting
    of the text into reads is not seen. *)
Lemma decode_split (buffer : string) (reads : list string) :
  settled buffer ->
  decode buffer reads =
  (popped (split (buffer +:+ received reads)),
   pop (split (buffer +:+ received reads))).
Proof.
  revert buffer. induction reads as [|text reads IH]; intros buffer Hb.
  - cbn [decode received fold_right]. rewrite append_empty_r, Hb.
    reflexivity.
  - cbn [decode feed received fold_right]. fold (received reads).
    rewrite (IH _ (pop_split_settled _)).
    rewrite <- append_assoc, (split_app (buffer +:+ text)).
    rewrite popped_app, pop_app by apply split_nonempty.
    reflexivity.
Qed.

End FrameFacts.

(** ** The read loop and the records of a stream *)

Module StreamFacts.
Import Frame Js Stream FrameFacts.

Section Loop.

Variable JSON_parse : string -> option value.
Variable fetch : request -> fetched.
Variable TypeError_message : string -> string.

Local Abbreviation on_line := (on_line JSON_parse).
Local Abbreviation event_of := (event_of JSON_parse).
Local Abbreviation terminal := (terminal JSON_parse).
Local Abbreviation chunks := (chunks JSON_parse).
Local Abbreviation assigned := (assigned JSON_parse).
Local Abbreviation after_lines := (after_lines JSON_parse).
Local Abbreviation for_lines := (for_lines JSON_parse).
Local Abbreviation read_loop := (read_loop JSON_parse).
Local Abbreviation queryAgentStream :=
  (queryAgentStream JSON_parse fetch TypeError_message).
Local Abbreviation streams := (streams fetch).

Lemma on_line_dispatch (v : vars) (line : string) :
  on_line v line = dispatch v (event_of line).
Proof.
  unfold Stream.on_line, Stream.event_of.
  destruct (startsWith line "data: "); [|reflexivity].
  destruct (JSON_parse (slice 6 line)) as [data|]; [|reflexivity].
  destruct (nullish data); [reflexivity|].
  repeat (match goal with
          | |- context [if is_text ?a ?b then _ else _] =>
              destruct (is_text a b); [reflexivity|]
          end).
  reflexivity.
Qed.

Lemma for_lines_app (v : vars) (l1 l2 : list string) :
  for_lines v (l1 ++ l2) =
  match for_lines v l1 with
  | (calls, Return) => (calls, Return)
  | (calls, Next v') =>
      let (calls', f) := for_lines v' l2 in (calls ++ calls', f)
  end.
Proof.
  revert v. induction l1 as [|line l1 IH]; intros v.
  - cbn [app Stream.for_lines]. now destruct (for_lines v l2).
  - cbn [app Stream.for_lines].
    destruct (on_line v line) as [calls [v'|]]; [|reflexivity].
    rewrite IH. destruct (for_lines v' l1) as [calls1 [v1|]].
    + destruct (for_lines v1 l2) as [calls2 f]. now rewrite app_assoc.
    + reflexivity.
Qed.

Lemma after_lines_nil (v : vars) : after_lines v [] = v.
Proof.
  destruct v as [full current]. unfold Stream.after_lines.
  cbn. now rewrite append_empty_r.
Qed.

(** Lines none of which is terminal: the chunks are delivered in order
    and the loop goes on. *)
Lemma for_lines_open (v : vars) (lines : list string) :
  forallb (fun line => negb (terminal line)) lines = true ->
  for_lines v lines = (map onChunk (chunks lines), Next (after_lines v lines)).
Proof.
  revert v. induction lines as [|line lines IH]; intros v H.
  - cbn [Stream.for_lines Stream.chunks map]. now rewrite after_lines_nil.
  - cbn [forallb] in H. apply andb_prop in H as [Hline Hlines].
    cbn [Stream.for_lines]. rewrite on_line_dispatch.
    unfold Stream.terminal in Hline.
    unfold Stream.after_lines. cbn [Stream.chunks Stream.assigned].
    destruct (event_of line) as [[id | content | response id | error]|];
      cbn [dispatch]; try discriminate;
      rewrite (IH _ Hlines); unfold Stream.after_lines;
      cbn [fullResponse currentSessionId map joined fold_right app];
      try rewrite append_assoc;
      destruct (assigned lines); reflexivity.
Qed.

(** The first terminal record ends the loop. *)
Lemma for_lines_closed (v : vars) (before after : list string)
  (line : string) :
  forallb (fun l => negb (terminal l)) before = true ->
  terminal line = true ->
  for_lines v (before ++ line :: after) =
  (map onChunk (chunks before) ++
   fst (dispatch (after_lines v before) (event_of line)), Return).
Proof.
  intros Hb Hl. rewrite for_lines_app, (for_lines_open _ _ Hb).
  cbn [Stream.for_lines]. rewrite on_line_dispatch.
  unfold Stream.terminal in Hl.
  destruct (event_of line) as [[id | content | response id | error]|];
    try discriminate; reflexivity.
Qed.

(** The loop over the reads does what one loop over all the records of
    the reads does. *)
Lemma read_loop_decode (buffer : string) (v : vars) (texts : list string)
  (failure : option thrown) :
  read_loop buffer v texts failure =
  finish (for_lines v (fst (decode buffer texts))) failure.
Proof.
  revert buffer v. induction texts as [|text texts IH]; intros buffer v.
  - reflexivity.
  - cbn [Stream.read_loop decode].
    destruct (feed buffer text) as [lines buffer'].
    specialize (IH buffer').
    destruct (decode buffer' texts) as [later final]. cbn [fst] in *.
    rewrite for_lines_app.
    destruct (for_lines v lines) as [calls [v'|]]; [|reflexivity].
    rewrite IH. destruct (for_lines v' later) as [calls' [v''|]];
      cbn [finish]; [now rewrite app_assoc | reflexivity].
Qed.

Lemma queryAgentStream_streams (question : string) (sessionId : value)
  (conversationId : option string) (s : stream) :
  streams question sessionId conversationId s ->
  queryAgentStream question sessionId conversationId =
  finish (for_lines (initial sessionId) (fst (decode "" (reads s))))
    (failure s).
Proof.
  intros (r & Hfetch & Hok & Hbody). unfold Stream.queryAgentStream.
  rewrite Hfetch, Hok, Hbody. cbn [negb]. apply read_loop_decode.
Qed.

(** Text contents are joined as texts. *)
Lemma joined_texts (texts : list string) :
  joined (map Str texts) = String.concat "" texts.
Proof.
  induction texts as [|t [|t' texts] IH]; [reflexivity | |].
  - cbn. now rewrite append_empty_r.
  - cbn [map joined fold_right to_string String.concat] in *.
    rewrite IH. reflexivity.
Qed.

End Loop.

End StreamFacts.

(** ** The frame decoder *)

Module DecoderClaims.
Import Frame Js Stream FrameFacts StreamFacts.

(** C2.  Whatever the cutting of the text into reads, also one that
    parts the two line feeds of a separator, reads that together hold N
    well-formed records, each followed by a blank line, yield exactly
    these N records in their order and leave the buffer empty; the loop of
    [queryAgentStream] handles exactly these records. *)
Theorem decoder_yields_the_framed_records
  (records texts : list string) :
  forallb well_formed records = true ->
  received texts = framed records ->
  decode "" texts = (records, "") /\
  forall JSON_parse v failure,
    read_loop JSON_parse "" v texts failure =
    finish (for_lines JSON_parse v records) failure.
Proof.
  intros Hwf Hrx.
  assert (E : decode "" texts = (records, "")).
  { rewrite decode_split by apply settled_empty.
    cbn [append]. rewrite Hrx.
    rewrite <- (append_empty_r (framed records)).
    rewrite split_framed by exact Hwf.
    cbn [split]. rewrite popped_app, pop_app by discriminate.
    cbn [popped removelast pop last]. now rewrite app_nil_r. }
  split; [exact E|].
  intros JSON_parse v failure. now rewrite read_loop_decode, E.
Qed.

Lemma decoder_yields_the_framed_records_witness :
  forallb well_formed [Sample.chunk_A; Sample.chunk_B] = true /\
  received Sample.parted_reads = framed [Sample.chunk_A; Sample.chunk_B] /\
  decode "" Sample.parted_reads = ([Sample.chunk_A; Sample.chunk_B], "").
Proof.
  split; [reflexivity|]. split; [reflexivity|].
  apply (decoder_yields_the_framed_records
           [Sample.chunk_A; Sample.chunk_B] Sample.parted_reads);
    reflexivity.
Defined.

(** C5.  When the text ends in the middle of a record, the records that
    were closed by a separator are yielded, the open tail stays in the
    buffer, and the calls of the loop are those of the closed records
    alone. *)
Theorem open_tail_is_never_a_record
  (records texts : list string) (tail : string) :
  forallb well_formed records = true ->
  has_blank_line tail = false ->
  received texts = framed records +:+ tail ->
  decode "" texts = (records, tail) /\
  forall JSON_parse v,
    read_loop JSON_parse "" v texts None =
    finish (for_lines JSON_parse v records) None.
Proof.
  intros Hwf Htail Hrx.
  assert (E : decode "" texts = (records, tail)).
  { rewrite decode_split by apply settled_empty.
    cbn [append]. rewrite Hrx, split_framed by exact Hwf.
    rewrite (no_blank_line_split _ Htail).
    rewrite popped_app, pop_app by discriminate.
    cbn [popped removelast pop last]. now rewrite app_nil_r. }
  split; [exact E|].
  intros JSON_parse v. now rewrite read_loop_decode, E.
Qed.

Lemma open_tail_is_never_a_record_witness :
  forallb well_formed [Sample.chunk_A] = true /\
  has_blank_line "data: {" = false /\
  received Sample.cut_reads = framed [Sample.chunk_A] +:+ "data: {" /\
  decode "" Sample.cut_reads = ([Sample.chunk_A], "data: {").
Proof.
  split; [reflexivity|]. split; [reflexivity|]. split; [reflexivity|].
  apply (open_tail_is_never_a_record
           [Sample.chunk_A] Sample.cut_reads "data: {");
    reflexivity.
Defined.

End DecoderClaims.

(** ** The dispatch of the records to the callbacks *)

Module OrchestratorClaims.
Import Frame Js Stream FrameFacts StreamFacts.

Section Claims.

Variable JSON_parse : string -> option value.
Variable fetch : request -> fetched.
Variable TypeError_message : string -> string.

Local Abbreviation event_of := (event_of JSON_parse).
Local Abbreviation terminal := (terminal JSON_parse).
Local Abbreviation malformed := (malformed JSON_parse).
Local Abbreviation chunks := (chunks JSON_parse).
Local Abbreviation assigned := (assigned JSON_parse).
Local Abbreviation after_lines := (after_lines JSON_parse).
Local Abbreviation on_line := (on_line JSON_parse).
Local Abbreviation for_lines := (for_lines JSON_parse).
Local Abbreviation queryAgentStream :=
  (queryAgentStream JSON_parse fetch TypeError_message).
Local Abbreviation streams := (streams fetch).

(** The calls of a stream up to and with its first terminal record. *)
Lemma calls_until_terminal (question : string) (sessionId : value)
  (conversationId : option string) (s : stream)
  (before after : list string) (line : string) :
  streams question sessionId conversationId s ->
  fst (decode "" (reads s)) = before ++ line :: after ->
  forallb (fun l => negb (terminal l)) before = true ->
  terminal line = true ->
  queryAgentStream question sessionId conversationId =
  map onChunk (chunks before) ++
  fst (dispatch (after_lines (initial sessionId) before) (event_of line)).
Proof.
  intros Hs Hd Hb Hl.
  rewrite (queryAgentStream_streams _ _ _ _ _ _ _ Hs), Hd.
  now rewrite (for_lines_closed _ _ _ _ _ Hb Hl).
Qed.

Lemma completed_is_terminal (line : string) (response id : value) :
  event_of line = Some (Completed response id) -> terminal line = true.
Proof. unfold Stream.terminal. now intros ->. Qed.



Lemma malformed_has_no_event (line : string) :
  malformed line = true -> event_of line = None.
Proof.
  unfold Stream.malformed, Stream.event_of.
  destruct (startsWith line "data: "); [|discriminate].
  now destruct (JSON_parse (slice 6 line)).
Qed.

(** Lines without an event are not seen by the loop. *)
Lemma for_lines_skip (v : vars) (before after : list string) (line : string) :
  event_of line = None ->
  for_lines v (before ++ line :: after) = for_lines v (before ++ after).
Proof.
  intros He. rewrite !for_lines_app.
  destruct (for_lines v before) as [calls [v'|]]; [|reflexivity].
  cbn [Stream.for_lines]. rewrite on_line_dispatch, He. cbn [dispatch].
  now destruct (for_lines v' after).
Qed.

Lemma chunks_app (l1 l2 : list string) :
  chunks (l1 ++ l2) = chunks l1 ++ chunks l2.
Proof.
  induction l1 as [|line l1 IH]; [reflexivity|].
  cbn [app Stream.chunks].
  destruct (event_of line) as [[id | content | response id | error]|];
    cbn [app]; now rewrite IH.
Qed.



End Claims.

End OrchestratorClaims.

Module OrchestratorWitnesses.
Import Frame Js Stream FrameFacts StreamFacts OrchestratorClaims.

Lemma sample_streams (texts : list string) (sessionId : value) :
  streams (Sample.answer (Sample.ok_body texts)) "question" sessionId None
    (Sample.whole texts).
Proof. exists (Sample.ok_body texts). repeat split. Qed.

(** The case that the specification gives for the fall-back on the
    chunks. *)
Example chunks_A_B_then_done :
  Sample.run Sample.ab_done Null =
  [onChunk (Str "A"); onChunk (Str "B"); onComplete (Str "AB") (Str "")].
Proof. reflexivity. Qed.

(** The case that the specification gives for an error: the chunk that
    follows the error in the same read is not delivered. *)
Example chunk_A_then_error :
  Sample.run Sample.a_boom_b Null =
  [onChunk (Str "A"); onError (Str "boom")].
Proof. reflexivity. Qed.



(** What the witness above amounts to: the id of the session record is
    passed, not the caller's. *)
Example session_record_wins :
  Sample.run Sample.session_done (Str "S0") =
  [onComplete (Str "") (Str "S1")].
Proof. reflexivity. Qed.


Example bare_session_record_hides_caller_id :
  Sample.run Sample.bare_session_done (Str "S0") =
  [onComplete (Str "") (Str "")] /\
  AsStated.session_id_by_precedence Undefined (Some Undefined) (Str "S0") =
  Str "S0".
Proof. split; reflexivity. Qed.


Example chunks_around_a_broken_record :
  Sample.run Sample.a_broken_b Null = [onChunk (Str "A"); onChunk (Str "B")].
Proof. reflexivity. Qed.


End OrchestratorWitnesses.

(** ** The exits of [queryAgentStream] *)

Module ExitClaims.
Import Frame Js Stream FrameFacts StreamFacts.

Lemma http_error_is_onError (TypeError_message : string -> string)
  (r : response) :
  exists message, http_error TypeError_message r = onError message.
Proof.
  unfold http_error.
  destruct (nullish _); eexists; reflexivity.
Qed.

(** C6, as amended.  A response whose status is not a success makes one
    call, to [onError], whatever parser is at hand: the body is not
    parsed and [onChunk] is not called.  The message is the text
    [Unknown error] when the error body is not JSON, that of the
    [TypeError] when the error body is JSON [null], and for every other
    JSON error body its detail when that is truthy and the generic
    message with the status when it is not. *)
Theorem error_status_is_reported_once
  (JSON_parse JSON_parse' : string -> option value)
  (fetch : request -> fetched) (TypeError_message : string -> string)
  (question : string) (sessionId : value) (conversationId : option string)
  (r : response) :
  fetch (request_of question sessionId conversationId) = Resolved r ->
  ok r = false ->
  (exists message,
     queryAgentStream JSON_parse fetch TypeError_message
       question sessionId conversationId = [onError message] /\
     (json r = None -> message = Str "Unknown error") /\
     (forall sent, json r = Some sent -> nullish sent = true ->
        message = Str (TypeError_message "detail")) /\
     (forall sent, json r = Some sent -> nullish sent = false ->
        truthy (prop sent "detail") = true ->
        message = prop sent "detail") /\
     (forall sent, json r = Some sent -> nullish sent = false ->
        truthy (prop sent "detail") = false ->
        message = Str ("HTTP error! status: " +:+ decimal (status r)))) /\
  queryAgentStream JSON_parse' fetch TypeError_message
    question sessionId conversationId =
  queryAgentStream JSON_parse fetch TypeError_message
    question sessionId conversationId.
Proof.
  intros Hfetch Hok. unfold queryAgentStream. rewrite Hfetch, Hok.
  cbn [negb]. split; [|reflexivity].
  unfold http_error. destruct (json r) as [sent|].
  - destruct (nullish sent) eqn:Hnull.
    + eexists. split; [reflexivity|]. repeat split.
      * discriminate.
      * intros sent' [= <-]. congruence.
      * intros sent' [= <-]. congruence.
    + eexists. split; [reflexivity|]. repeat split.
      * discriminate.
      * intros sent' [= <-]. congruence.
      * intros sent' [= <-] _ Hd. unfold or_else. now rewrite Hd.
      * intros sent' [= <-] _ Hd. unfold or_else. now rewrite Hd.
  - cbn [nullish]. eexists. split; [reflexivity|]. repeat split.
    + discriminate.
    + discriminate.
    + discriminate.
Qed.

Lemma error_status_is_reported_once_witness :
  ok Sample.bad_gateway = false /\
  (exists message,
     queryAgentStream Sample.parse (Sample.answer Sample.bad_gateway)
       Sample.engine_message "question" Null None = [onError message] /\
     message = Str "Unknown error") /\
  queryAgentStream (fun _ => None) (Sample.answer Sample.bad_gateway)
    Sample.engine_message "question" Null None =
  queryAgentStream Sample.parse (Sample.answer Sample.bad_gateway)
    Sample.engine_message "question" Null None.
Proof.
  split; [reflexivity|].
  destruct (error_status_is_reported_once Sample.parse (fun _ => None)
              (Sample.answer Sample.bad_gateway) Sample.engine_message
              "question" Null None Sample.bad_gateway eq_refl eq_refl)
    as [(message & Hcalls & Hnone & _) Hsame].
  split; [|exact Hsame].
  exists message. split; [exact Hcalls | exact (Hnone eq_refl)].
Defined.

(** C6 as stated fails: for an error body that is not JSON the message
    is neither a detail from the server nor the message with the
    status. *)
Lemma unknown_error_is_neither :
  ~ AsStated.error_status_message.
Proof.
  intros H.
  destruct (H Sample.parse (Sample.answer Sample.bad_gateway)
              Sample.engine_message "question" Null None
              Sample.bad_gateway eq_refl eq_refl)
    as (message & Hcalls & [(sent & Hsent & _) | Hstatus]).
  - discriminate Hsent.
  - vm_compute in Hcalls. vm_compute in Hstatus.
    rewrite Hstatus in Hcalls. discriminate Hcalls.
Qed.

Example bad_gateway_message :
  queryAgentStream Sample.parse (Sample.answer Sample.bad_gateway)
    Sample.engine_message "question" Null None =
  [onError (Str "Unknown error")].
Proof. reflexivity. Qed.

Section Order.

Variable JSON_parse : string -> option value.
Variable fetch : request -> fetched.
Variable TypeError_message : string -> string.

(** The calls of the inner loop: chunks, closed by a terminal call
    exactly when the loop returns. *)
Lemma for_lines_shape (v : vars) (lines : list string) :
  exists contents,
    (exists v', for_lines JSON_parse v lines = (map onChunk contents, Next v'))
    \/
    (exists closing,
       is_terminal_call closing = true /\
       for_lines JSON_parse v lines =
       (map onChunk contents ++ [closing], Return)).
Proof.
  revert v. induction lines as [|line lines IH]; intros v.
  - exists []. left. now exists v.
  - cbn [for_lines]. rewrite on_line_dispatch.
    destruct (event_of JSON_parse line)
      as [[id | content | response id | error]|]; cbn [dispatch].
    + destruct (IH {| fullResponse := fullResponse v;
                      currentSessionId := id |})
        as [contents [[v' ->] | (closing & Hc & ->)]];
        exists contents; [left; now exists v' | right; now exists closing].
    + destruct (IH {| fullResponse :=
                        fullResponse v +:+ to_string content;
                      currentSessionId := currentSessionId v |})
        as [contents [[v' ->] | (closing & Hc & ->)]];
        exists (content :: contents);
        [left; now exists v' | right; now exists closing].
    + exists []. right. eexists. split; [|reflexivity]. reflexivity.
    + exists []. right. eexists. split; [|reflexivity]. reflexivity.
    + destruct (IH v) as [contents [[v' ->] | (closing & Hc & ->)]];
        exists contents; [left; now exists v' | right; now exists closing].
Qed.

(** X4.  The part of the ordering guarantee that every call keeps:
    chunks first, then at most one terminal call, and nothing after
    it. *)
Lemma calls_in_order (question : string) (sessionId : value)
  (conversationId : option string) :
  exists contents closing,
    queryAgentStream JSON_parse fetch TypeError_message
      question sessionId conversationId = map onChunk contents ++ closing /\
    (closing = [] \/
     exists c, closing = [c] /\ is_terminal_call c = true).
Proof.
  unfold queryAgentStream.
  destruct (fetch _) as [e | r].
  - exists [], [onError (catch_message e)]. split; [reflexivity|].
    right. now eexists.
  - destruct (ok r); cbn [negb].
    + destruct (body r) as [s|].
      * rewrite read_loop_decode.
        destruct (for_lines_shape (initial sessionId)
                    (fst (decode "" (reads s))))
          as [contents [[v' ->] | (closing & Hc & ->)]]; cbn [finish].
        -- destruct (failure s) as [e|].
           ++ exists contents, [onError (catch_message e)].
              split; [reflexivity|]. right. now eexists.
           ++ exists contents, []. split; [reflexivity | now left].
        -- exists contents, [closing]. split; [reflexivity|].
           right. now exists closing.
      * exists [], [onError (Str "No response body")].
        split; [reflexivity|]. right. now eexists.
    + destruct (http_error_is_onError TypeError_message r) as [m ->].
      exists [], [onError m]. split; [reflexivity|]. right. now eexists.
Qed.

End Order.

(** C1 at a body that ends after a chunk record: the chunk is delivered
    and the function returns; the calls are not of the promised form,
    since no [onComplete] or [onError] closes them. *)
Theorem stream_end_makes_no_terminal_call :
  Sample.run Sample.a_then_end Null = [onChunk (Str "A")] /\
  ~ AsStated.chunks_then_one_terminal (Sample.run Sample.a_then_end Null).
Proof.
  assert (E : Sample.run Sample.a_then_end Null = [onChunk (Str "A")])
    by reflexivity.
  split; [exact E|]. rewrite E.
  intros (contents & closing & Hcalls & Hterminal).
  change [onChunk (Str "A")] with ([] ++ [onChunk (Str "A")]) in Hcalls.
  apply app_inj_tail in Hcalls as [_ <-]. discriminate Hterminal.
Qed.

End ExitClaims.

(** ** The session id of the component *)

Module ChatClaims.
Import Js Stream Chat.



(** Without a session id there is no listener, and no request. *)
Lemma page_hide_without_session (env : option string) (st : state)
  (persisted : bool) (navEntry : option NavigationTimingType) :
  truthy (sessionId st) = false ->
  on_pagehide env st persisted navEntry = [].
Proof.
  intros H. unfold on_pagehide, pagehide_listeners. now rewrite H.
Qed.

Section Reset.

Variable trim : string -> string.

(** The next call after a new chat carries no session id. *)
Lemma new_chat_resets_session (st : state) (created : option string)
  (q : query) :
  sessionId (handleNewChat st) = Null /\
  (query_of trim (handleNewChat st) created = Some q ->
   query_sessionId q = Null /\
   session_id (request_of (query_question q) (query_sessionId q)
                 (query_conversationId q)) = Undefined).
Proof.
  split; [reflexivity|]. unfold query_of.
  destruct (refused trim (handleNewChat st)); [discriminate|].
  intros [= <-]. split; reflexivity.
Qed.

(** So does the next call after a switch whose two requests resolve. *)
Lemma loaded_switch_resets_session (st : state) (conversationId : string)
  (conversation : Conversation.t) (ms : list ConversationMessage.t)
  (created : option string) (q : query) :
  let st' :=
    handleConversationSelect conversationId (Some (conversation, ms)) st in
  sessionId st' = Null /\
  (query_of trim st' created = Some q -> query_sessionId q = Null).
Proof.
  split; [reflexivity|]. unfold query_of.
  destruct (refused trim _); [discriminate|].
  now intros [= <-].
Qed.

(** A switch whose requests reject changes the current conversation and
    keeps the session id. *)
Lemma failed_switch_keeps_session (st : state) (conversationId : string) :
  let st' := handleConversationSelect conversationId None st in
  currentConversationId st' = Some conversationId /\
  sessionId st' = sessionId st.
Proof. split; reflexivity. Qed.

End Reset.

(** C9 at a switch that fails to load: in a session [S1] of conversation
    [c1], selecting [c2] while [getConversation] rejects makes [c2] the
    current conversation and leaves [S1] in place, and the next question
    is sent with session [S1] and conversation [c2]. *)
Theorem failed_switch_sends_old_session :
  currentConversationId Sample.after_failed_switch = Some "c2" /\
  sessionId Sample.after_failed_switch = Str "S1" /\
  query_of Sample.trimmed Sample.after_failed_switch None =
  Some {| query_question := "next question";
          query_sessionId := Str "S1";
          query_conversationId := Some "c2" |} /\
  request_of "next question" (Str "S1") (Some "c2") =
  {| question := "next question";
     session_id := Str "S1";
     conversation_id := Some "c2" |}.
Proof. repeat split. Qed.

(** A stream that ends without a terminal record leaves the component
    loading, and a component that is loading refuses every submit. *)
Lemma loading_refuses_submit (trim : string -> string)
  (code_units : string -> nat) (first_units : nat -> string -> string)
  (JSON_parse : string -> option value) (fetch : request -> fetched)
  (TypeError_message : string -> string) (created : option string)
  (title_saved : bool) (now : nat) (st : state) :
  isLoading st = true ->
  handleSubmit trim code_units first_units JSON_parse fetch
    TypeError_message created title_saved now st = st.
Proof.
  intros H. unfold handleSubmit, query_of, refused.
  now rewrite H, orb_true_r.
Qed.

Example open_stream_leaves_loading :
  isLoading (Sample.submit Sample.a_then_end Sample.first_question) = true /\
  isLoading (Sample.submit Sample.ab_done Sample.first_question) = false /\
  isLoading (Sample.submit Sample.a_boom_b Sample.first_question) = false.
Proof. repeat split. Qed.

End ChatClaims.

(** ** Laws of the frame decoder *)

Module DecoderLaws.
Import Frame FrameFacts.

Lemma framed_cons (r : string) (records : list string) :
  framed (r :: records) = r +:+ separator +:+ framed records.
Proof. unfold framed. cbn [map received fold_right]. apply append_assoc. Qed.

(** The pieces of a text, each but the last followed by the separator,
    make up the text again. *)
Lemma split_rejoins (s : string) :
  framed (popped (split s)) +:+ pop (split s) = s.
Proof.
  induction s as [| c | c c' s IHs IHt] using string_window_ind.
  - reflexivity.
  - reflexivity.
  - rewrite split_window. destruct (is_LF c && is_LF c') eqn:W.
    + rewrite popped_cons, pop_cons by apply split_nonempty.
      rewrite framed_cons. cbn [append separator].
      apply andb_prop in W as [Wc Wc']. unfold is_LF in Wc, Wc'.
      apply Ascii.eqb_eq in Wc, Wc'. subst c c'.
      fold (framed (popped (split s)) +:+ pop (split s)).
      now rewrite IHs.
    + destruct (split (String c' s)) as [|p [|p' l]] eqn:E.
      * now apply split_nonempty in E.
      * apply split_single in E. now subst p.
      * cbn [push]. rewrite popped_cons, pop_cons by discriminate.
        rewrite popped_cons, pop_cons in IHt by discriminate.
        rewrite framed_cons in *. cbn [append] in *. now rewrite IHt.
Qed.

(** X2.  The decoder neither loses nor invents text: the records it has
    yielded, each followed by the separator, and then the buffer it
    keeps, are the text received. *)
Theorem decode_keeps_the_text (texts : list string) :
  framed (fst (decode "" texts)) +:+ snd (decode "" texts) = received texts.
Proof.
  rewrite decode_split by apply settled_empty. cbn [fst snd append].
  apply split_rejoins.
Qed.

(** X1.  Two sequences of reads that carry the same text yield the same
    records and leave the same buffer, whatever the text is. *)
Theorem decode_sees_only_the_text (texts texts' : list string) :
  received texts = received texts' ->
  decode "" texts = decode "" texts'.
Proof.
  intros H. rewrite !decode_split by apply settled_empty. now rewrite H.
Qed.

Lemma decode_sees_only_the_text_witness :
  received Sample.parted_reads = received [received Sample.parted_reads] /\
  decode "" Sample.parted_reads = decode "" [received Sample.parted_reads].
Proof.
  split; [reflexivity|].
  apply (decode_sees_only_the_text Sample.parted_reads
           [received Sample.parted_reads]).
  reflexivity.
Defined.

(** The first piece of a text that splits in several is empty, when the
    text begins with a separator, or begins as the text does. *)
Lemma first_piece (c : ascii) (s p q : string) (l : list string) :
  split (String c s) = p :: q :: l ->
  p = EmptyString /\ is_LF c = true \/
  exists p', p = String c p'.
Proof.
  destruct s as [|c' s]; [discriminate|].
  rewrite split_window. destruct (is_LF c && is_LF c') eqn:W.
  - intros [= <- _]. left. split; [reflexivity|].
    now apply andb_prop in W.
  - destruct (split (String c' s)) as [|p0 l0]; cbn [push].
    + discriminate.
    + intros [= <- _]. right. now eexists.
Qed.

Lemma has_blank_line_window (c c' : ascii) (s : string) :
  has_blank_line (String c (String c' s)) =
  (is_LF c && is_LF c') || has_blank_line (String c' s).
Proof. reflexivity. Qed.

Lemma well_formed_push (c c' : ascii) (s p q : string) (l : list string) :
  is_LF c && is_LF c' = false ->
  split (String c' s) = p :: q :: l ->
  well_formed p = true ->
  well_formed (String c p) = true.
Proof.
  intros W E Hp. unfold well_formed in *. rewrite negb_true_iff in *.
  destruct (first_piece _ _ _ _ _ E) as [[-> Hc'] | [p' ->]].
  - cbn. rewrite Hc' in W. rewrite andb_true_r in W. rewrite W.
    reflexivity.
  - cbn [append] in *. now rewrite has_blank_line_window, W, Hp.
Qed.

Lemma split_pieces_well_formed (s : string) :
  forallb well_formed (popped (split s)) = true /\
  has_blank_line (pop (split s)) = false.
Proof.
  induction s as [| c | c c' s IHs IHt] using string_window_ind.
  - split; reflexivity.
  - split; reflexivity.
  - rewrite split_window. destruct (is_LF c && is_LF c') eqn:W.
    + rewrite popped_cons, pop_cons by apply split_nonempty.
      cbn [forallb]. destruct IHs as [-> ->]. split; reflexivity.
    + destruct (split (String c' s)) as [|p [|p' l]] eqn:E.
      * now apply split_nonempty in E.
      * apply split_single in E as Ep. subst p. cbn [push popped pop
          removelast last] in *. split; [reflexivity|].
        rewrite has_blank_line_window, W. apply IHt.
      * cbn [push]. rewrite popped_cons, pop_cons by discriminate.
        rewrite popped_cons, pop_cons in IHt by discriminate.
        cbn [forallb] in *. destruct IHt as [Hall Hpop].
        apply andb_prop in Hall as [Hp Hrest].
        rewrite (well_formed_push _ _ _ _ _ _ W E Hp), Hrest, Hpop.
        split; reflexivity.
Qed.

(** X3.  Every record that the decoder yields is well formed, with no
    blank line inside and no line feed at its end, and the buffer it
    keeps holds no blank line, whatever text the reads carry. *)
Theorem decoded_records_are_well_formed (texts : list string) :
  forallb well_formed (fst (decode "" texts)) = true /\
  has_blank_line (snd (decode "" texts)) = false.
Proof.
  rewrite decode_split by apply settled_empty. cbn [fst snd].
  apply split_pieces_well_formed.
Qed.

End DecoderLaws.

(** ** Laws of the dispatch *)

Module OrchestratorLaws.
Import Frame Js Stream Protocol FrameFacts StreamFacts.

Lemma wire_streams (fetch : request -> fetched) (r : response) (s : stream)
  (question : string) (sessionId : value) (conversationId : option string) :
  fetch (request_of question sessionId conversationId) = Resolved r ->
  ok r = true -> body r = Some s ->
  streams fetch question sessionId conversationId s.
Proof. intros Hf Ho Hb. now exists r. Qed.

Section Laws.

Variable JSON_parse : string -> option value.
Variable fetch : request -> fetched.
Variable TypeError_message : string -> string.

Local Abbreviation event_of := (event_of JSON_parse).
Local Abbreviation terminal := (terminal JSON_parse).
Local Abbreviation chunks := (chunks JSON_parse).
Local Abbreviation has_event := (has_event JSON_parse).
Local Abbreviation for_lines := (for_lines JSON_parse).
Local Abbreviation read_loop := (read_loop JSON_parse).
Local Abbreviation queryAgentStream :=
  (queryAgentStream JSON_parse fetch TypeError_message).
Local Abbreviation streams := (streams fetch).




Lemma for_lines_filter (v : vars) (lines : list string) :
  for_lines v (filter has_event lines) = for_lines v lines.
Proof.
  revert v. induction lines as [|line lines IH]; intros v; [reflexivity|].
  cbn [filter]. unfold Protocol.has_event at 1.
  destruct (event_of line) as [e|] eqn:He.
  - cbn [Stream.for_lines].
    destruct (on_line JSON_parse v line) as [calls [v'|]]; [|reflexivity].
    now rewrite IH.
  - cbn [Stream.for_lines]. rewrite on_line_dispatch, He. cbn [dispatch].
    rewrite IH. now destruct (for_lines v lines).
Qed.

(** X8.  Lines that carry no event (lines without the data marker,
    payloads that do not parse, [null], payloads of an unknown type) can
    be taken out of a stream without any change to the calls. *)
Theorem lines_without_event_are_not_seen (question : string)
  (sessionId : value) (conversationId : option string) (s : stream) :
  streams question sessionId conversationId s ->
  queryAgentStream question sessionId conversationId =
  finish
    (for_lines (initial sessionId)
       (filter has_event (fst (decode "" (reads s)))))
    (failure s).
Proof.
  intros Hs. rewrite (queryAgentStream_streams _ _ _ _ _ _ _ Hs).
  now rewrite for_lines_filter.
Qed.

Lemma decode_app (buffer : string) (pre post : list string) :
  fst (decode buffer (pre ++ post)) =
  fst (decode buffer pre) ++ fst (decode (snd (decode buffer pre)) post).
Proof.
  revert buffer. induction pre as [|text pre IH]; intros buffer.
  - reflexivity.
  - cbn [app decode]. destruct (feed buffer text) as [records buffer'].
    specialize (IH buffer').
    destruct (decode buffer' (pre ++ post)) as [later final].
    destruct (decode buffer' pre) as [later' final']. cbn [fst snd] in *.
    destruct (decode final' post) as [last_records last_buffer].
    cbn [fst] in *. rewrite IH. apply app_assoc.
Qed.

(** X9.  Once a done or an error record was handled, the body is read no
    further: the reads that follow, and a rejection of one of them, do
    not show in the calls. *)
Theorem nothing_is_read_after_a_terminal_record (question : string)
  (sessionId : value) (conversationId : option string) (s : stream)
  (pre post : list string) :
  streams question sessionId conversationId s ->
  reads s = pre ++ post ->
  snd (for_lines (initial sessionId) (fst (decode "" pre))) = Return ->
  queryAgentStream question sessionId conversationId =
  fst (for_lines (initial sessionId) (fst (decode "" pre))).
Proof.
  intros Hs Hr Hret.
  rewrite (queryAgentStream_streams _ _ _ _ _ _ _ Hs), Hr, decode_app.
  rewrite for_lines_app.
  destruct (for_lines (initial sessionId) (fst (decode "" pre)))
    as [calls [v|]]; [discriminate | reflexivity].
Qed.

(** X27.  The calls of the read loop depend on the text of the body and
    on how the body ends, not on the cutting of the text into reads. *)
Theorem calls_do_not_depend_on_the_cutting (v : vars)
  (texts texts' : list string) (failure : option thrown) :
  received texts = received texts' ->
  read_loop "" v texts failure = read_loop "" v texts' failure.
Proof.
  intros H. rewrite !read_loop_decode.
  rewrite !decode_split by apply settled_empty. now rewrite H.
Qed.

End Laws.

Lemma calls_do_not_depend_on_the_cutting_witness :
  received Sample.parted_reads = received [received Sample.parted_reads] /\
  read_loop Sample.parse "" (initial Null) Sample.parted_reads None =
  read_loop Sample.parse "" (initial Null) [received Sample.parted_reads]
    None.
Proof.
  split; [reflexivity|].
  apply (calls_do_not_depend_on_the_cutting Sample.parse (initial Null)
           Sample.parted_reads [received Sample.parted_reads] None).
  reflexivity.
Defined.




Lemma lines_without_event_are_not_seen_witness :
  filter (has_event Sample.parse) (fst (decode "" Wire.pings_around_a)) =
  [Sample.chunk_A] /\
  Sample.run Wire.pings_around_a Null =
  finish
    (for_lines Sample.parse (initial Null)
       (filter (has_event Sample.parse)
          (fst (decode "" Wire.pings_around_a))))
    None.
Proof.
  split; [reflexivity|].
  apply (lines_without_event_are_not_seen Sample.parse
           (Sample.answer (Sample.ok_body Wire.pings_around_a))
           Sample.engine_message "question" Null None
           (Sample.whole Wire.pings_around_a)).
  eapply wire_streams; reflexivity.
Defined.

Lemma nothing_is_read_after_a_terminal_record_witness :
  snd (for_lines Sample.parse (initial Null)
         (fst (decode "" [Sample.error_boom +:+ separator]))) = Return /\
  queryAgentStream Sample.parse
    (Sample.answer
       (Wire.ok_breaking
          ([Sample.error_boom +:+ separator] ++
           [Sample.chunk_B +:+ separator])))
    Sample.engine_message "question" Null None =
  fst (for_lines Sample.parse (initial Null)
         (fst (decode "" [Sample.error_boom +:+ separator]))).
Proof.
  split; [reflexivity|].
  apply (nothing_is_read_after_a_terminal_record Sample.parse
           (Sample.answer
              (Wire.ok_breaking
                 ([Sample.error_boom +:+ separator] ++
                  [Sample.chunk_B +:+ separator])))
           Sample.engine_message "question" Null None
           (Wire.breaking
              ([Sample.error_boom +:+ separator] ++
               [Sample.chunk_B +:+ separator]))
           [Sample.error_boom +:+ separator]
           [Sample.chunk_B +:+ separator]);
    [eapply wire_streams; reflexivity | reflexivity ..].
Defined.

End OrchestratorLaws.

(** ** Laws of the component *)

Module ChatLaws.
Import Js Stream Chat FrameFacts.

Lemma on_last_length (f : string -> string) (ms : list Message) :
  List.length (on_last f ms) = List.length ms.
Proof.
  unfold on_last. destruct (rev ms) as [|m before] eqn:E; [reflexivity|].
  destruct (String.eqb (role m) "assistant"); [|reflexivity].
  rewrite length_app, length_rev. cbn [List.length].
  rewrite <- (length_rev ms), E. cbn [List.length]. lia.
Qed.

Lemma on_last_assistant (f : string -> string) (ms : list Message)
  (text : string) (i : option message_id) :
  on_last f (ms ++ [{| role := "assistant"; content := text; id := i |}]) =
  ms ++ [{| role := "assistant"; content := f text; id := i |}].
Proof.
  unfold on_last. rewrite rev_app_distr. cbn [rev app role content id].
  cbn [String.eqb Ascii.eqb Bool.eqb andb]. now rewrite rev_involutive.
Qed.

Lemma length_append_sum (a b : string) :
  String.length (a +:+ b) = String.length a + String.length b.
Proof. induction a as [|c a IH]; cbn; [reflexivity | now rewrite IH]. Qed.

Lemma length_substring_min (n : nat) (s : string) :
  String.length (substring 0 n s) = Nat.min n (String.length s).
Proof.
  revert s. induction n as [|n IH]; intros [|c s]; cbn; try reflexivity.
  now rewrite IH.
Qed.

Lemma with_own_messages (st : state) : with_messages (messages st) st = st.
Proof. now destruct st. Qed.

(** The chunks of a stream grow the assistant's message and change
    nothing else. *)
Lemma chunks_grow_the_answer (captured : value) (contents : list value)
  (st : state) (ms : list Message) (text : string) (i : option message_id) :
  messages st = ms ++ [{| role := "assistant"; content := text; id := i |}] ->
  fold_left (handle captured) (map onChunk contents) st =
  with_messages
    (ms ++ [{| role := "assistant";
               content := text +:+ joined contents; id := i |}]) st.
Proof.
  revert st text. induction contents as [|c contents IH]; intros st text H.
  - cbn [map fold_left joined fold_right]. rewrite append_empty_r, <- H.
    now rewrite with_own_messages.
  - cbn [map fold_left handle]. rewrite H, on_last_assistant.
    rewrite (IH _ (text +:+ to_string c)) by reflexivity.
    cbn [joined fold_right]. rewrite append_assoc. reflexivity.
Qed.

Section Submit.

Variable trim : string -> string.
Variable code_units : string -> nat.
Variable first_units : nat -> string -> string.
Variable JSON_parse : string -> option value.
Variable fetch : request -> fetched.
Variable TypeError_message : string -> string.

Local Abbreviation handleSubmit :=
  (handleSubmit trim code_units first_units JSON_parse fetch
     TypeError_message).
Local Abbreviation truncatedTitle :=
  (truncatedTitle trim code_units first_units).
Local Abbreviation refused := (refused trim).
Local Abbreviation calls_of st created :=
  (queryAgentStream JSON_parse fetch TypeError_message
     (trim (input st)) (sessionId st) (conversation_of st created)).

Lemma handleSubmit_accepted (created : option string) (title_saved : bool)
  (now : nat) (st : state) :
  refused st = false ->
  handleSubmit created title_saved now st =
  let st' :=
    fold_left (handle (sessionId st)) (calls_of st created)
      (opened trim st created now) in
  if renames st created && title_saved
  then retitled (truncatedTitle st) st' else st'.
Proof.
  intros H. unfold Chat.handleSubmit, query_of. rewrite H. reflexivity.
Qed.

Lemma handleSubmit_field (A : Type) (field : state -> A)
  (created : option string) (title_saved : bool) (now : nat) (st : state) :
  (forall title st', field (retitled title st') = field st') ->
  refused st = false ->
  field (handleSubmit created title_saved now st) =
  field (fold_left (handle (sessionId st)) (calls_of st created)
           (opened trim st created now)).
Proof.
  intros Hfield H. rewrite (handleSubmit_accepted _ _ _ _ H). cbv zeta.
  destruct (renames st created && title_saved); [apply Hfield | reflexivity].
Qed.

Lemma handle_keeps_length (captured : value) (calls : list call)
  (st : state) :
  List.length (messages (fold_left (handle captured) calls st)) =
  List.length (messages st).
Proof.
  revert st. induction calls as [|c calls IH]; intros st; [reflexivity|].
  cbn [fold_left]. rewrite IH.
  destruct c; cbn [handle with_messages settle messages];
    try apply on_last_length; reflexivity.
Qed.


Lemma handle_loading (captured : value) (calls : list call) (st : state) :
  isLoading (fold_left (handle captured) calls st) =
  if existsb is_terminal_call calls then false else isLoading st.
Proof.
  revert st. induction calls as [|c calls IH]; intros st; [reflexivity|].
  cbn [fold_left existsb]. rewrite IH.
  destruct c; cbn [handle is_terminal_call orb with_messages settle
                     isLoading];
    try reflexivity; now destruct (existsb is_terminal_call calls).
Qed.

(** X15.  After an accepted submit the component is loading exactly when
    the stream made no call to [onComplete] or [onError]: a stream that
    ends without terminal call leaves the form blocked. *)
Theorem loading_ends_with_a_terminal_call (created : option string)
  (title_saved : bool) (now : nat) (st : state) :
  refused st = false ->
  isLoading (handleSubmit created title_saved now st) =
  negb (existsb is_terminal_call (calls_of st created)).
Proof.
  intros H. rewrite (handleSubmit_field _ isLoading) by (trivial || exact H).
  rewrite handle_loading. cbn [opened isLoading].
  now destruct (existsb _ _).
Qed.

Lemma handle_session (captured : value) (calls : list call) (st : state) :
  (truthy captured = true ->
   sessionId (fold_left (handle captured) calls st) = sessionId st) /\
  (sessionId (fold_left (handle captured) calls st) = sessionId st \/
   truthy (sessionId (fold_left (handle captured) calls st)) = true).
Proof.
  revert st. induction calls as [|c calls IH]; intros st.
  - split; [reflexivity | now left].
  - cbn [fold_left]. destruct (IH (handle captured st c)) as [IH1 IH2].
    destruct c as [chunk | full new | error];
      cbn [handle with_messages settle sessionId] in *.
    + split; [exact IH1 | exact IH2].
    + destruct (truthy captured); cbn [negb andb] in *.
      * split; [exact IH1 | exact IH2].
      * split; [discriminate|]. destruct (truthy new) eqn:Hnew.
        -- cbn [sessionId] in IH2. destruct IH2 as [-> | ->];
             [right; exact Hnew | now right].
        -- exact IH2.
    + split; [exact IH1 | exact IH2].
Qed.

(** X10.  A submit never replaces an active session id, whatever the
    stream brings, and never stores a falsy one: the session id after it
    is the one before it or a truthy one. *)
Theorem submit_keeps_the_session (created : option string)
  (title_saved : bool) (now : nat) (st : state) :
  (truthy (sessionId st) = true ->
   sessionId (handleSubmit created title_saved now st) = sessionId st) /\
  (sessionId (handleSubmit created title_saved now st) = sessionId st \/
   truthy (sessionId (handleSubmit created title_saved now st)) = true).
Proof.
  destruct (refused st) eqn:H.
  - unfold Chat.handleSubmit, query_of. rewrite H.
    split; [reflexivity | now left].
  - rewrite (handleSubmit_field _ sessionId) by (trivial || exact H).
    apply (handle_session (sessionId st) (calls_of st created)
             (opened trim st created now)).
Qed.

(** X11.  When the stream is closed by [onComplete], the answer on
    screen is the text joined from the chunks, not the response that
    [onComplete] received; the component stops loading, and the new
    session id is stored when none was active and it is truthy. *)
Theorem completed_stream_shows_the_chunks (created : option string)
  (title_saved : bool) (now : nat) (st : state)
  (contents : list value) (full new : value) :
  refused st = false ->
  calls_of st created = map onChunk contents ++ [onComplete full new] ->
  messages (handleSubmit created title_saved now st) =
  messages st ++
  [{| role := "user"; content := trim (input st); id := None |};
   {| role := "assistant"; content := joined contents;
      id := Some (NumberId now) |}] /\
  isLoading (handleSubmit created title_saved now st) = false /\
  sessionId (handleSubmit created title_saved now st) =
  (if negb (truthy (sessionId st)) && truthy new then new
   else sessionId st).
Proof.
  intros H Hcalls.
  rewrite (handleSubmit_field _ messages), (handleSubmit_field _ isLoading),
    (handleSubmit_field _ sessionId) by (trivial || exact H).
  rewrite Hcalls, fold_left_app.
  rewrite (chunks_grow_the_answer _ _ _
             (messages st ++
              [{| role := "user"; content := trim (input st); id := None |}])
             "" (Some (NumberId now))) by reflexivity.
  cbn [fold_left handle settle with_messages messages isLoading sessionId
         opened append].
  rewrite <- app_assoc. cbn [app].
  repeat split. now destruct (negb (truthy (sessionId st)) && truthy new).
Qed.


(** X13.  Counted as the host counts, in UTF-16 code units, the title
    given to a new conversation has the length of the trimmed question
    when that is at most 50, and 53 otherwise (50 units and the dots): it
    is never longer than 53.  The laws of the host that this rests on are
    that the length of a concatenation is the sum of the lengths, and
    that [substring(0, n)] has [n] units or all the units of the text,
    whichever is less. *)
Theorem title_is_bounded (st : state) :
  (forall a b, code_units (a +:+ b) = code_units a + code_units b) ->
  (forall n s, code_units (first_units n s) = Nat.min n (code_units s)) ->
  code_units "..." = 3 ->
  code_units (truncatedTitle st) =
  (if Nat.ltb 50 (code_units (trim (input st))) then 53
   else code_units (trim (input st))) /\
  code_units (truncatedTitle st) <= 53.
Proof.
  intros Hsum Hfirst Hdots. unfold Chat.truncatedTitle.
  destruct (Nat.ltb 50 (code_units (trim (input st)))) eqn:L.
  - apply Nat.ltb_lt in L. rewrite Hsum, Hfirst, Hdots. lia.
  - apply Nat.ltb_ge in L. lia.
Qed.

End Submit.

Lemma title_is_bounded_witness :
  Sample.units "..." = 3 /\
  Chat.truncatedTitle Sample.trimmed Sample.units Sample.first
    Sample.long_question =
  "What did the team decide about the budget in the l..." /\
  Sample.units
    (Chat.truncatedTitle Sample.trimmed Sample.units Sample.first
       Sample.long_question) = 53 /\
  Sample.units
    (Chat.truncatedTitle Sample.trimmed Sample.units Sample.first
       Sample.long_question) <= 53.
Proof.
  split; [reflexivity|]. split; [reflexivity|].
  apply (title_is_bounded Sample.trimmed Sample.units Sample.first
           Sample.long_question);
    [exact length_append_sum
    | intros n s; apply length_substring_min
    | reflexivity].
Defined.


Lemma loading_ends_with_a_terminal_call_witness :
  refused Sample.trimmed Sample.first_question = false /\
  isLoading (Sample.submit Sample.a_then_end Sample.first_question) =
  negb (existsb is_terminal_call [onChunk (Str "A")]).
Proof.
  split; [reflexivity|].
  apply (loading_ends_with_a_terminal_call Sample.trimmed Sample.units Sample.first
           Sample.parse
           (Sample.answer (Sample.ok_body Sample.a_then_end))
           Sample.engine_message (Some "c1") true 0 Sample.first_question).
  reflexivity.
Defined.

Lemma submit_keeps_the_session_witness :
  truthy (sessionId Sample.in_session) = true /\
  sessionId (Sample.submit Wire.a_then_full_done Sample.in_session) =
  Str "S1".
Proof.
  split; [reflexivity|].
  apply (proj1 (submit_keeps_the_session Sample.trimmed Sample.units
                  Sample.first Sample.parse
                  (Sample.answer (Sample.ok_body Wire.a_then_full_done))
                  Sample.engine_message (Some "c1") true 0
                  Sample.in_session)).
  reflexivity.
Defined.

Lemma completed_stream_shows_the_chunks_witness :
  refused Sample.trimmed Sample.first_question = false /\
  Sample.run Wire.a_then_full_done Null =
  map onChunk [Str "A"] ++ [onComplete (Str "AB") (Str "S2")] /\
  messages (Sample.submit Wire.a_then_full_done Sample.first_question) =
  [{| role := "user"; content := "hello"; id := None |};
   {| role := "assistant"; content := "A"; id := Some (NumberId 0) |}] /\
  isLoading (Sample.submit Wire.a_then_full_done Sample.first_question) =
  false /\
  sessionId (Sample.submit Wire.a_then_full_done Sample.first_question) =
  Str "S2".
Proof.
  split; [reflexivity|]. split; [reflexivity|].
  apply (completed_stream_shows_the_chunks Sample.trimmed Sample.units Sample.first
           Sample.parse
           (Sample.answer (Sample.ok_body Wire.a_then_full_done))
           Sample.engine_message (Some "c1") true 0 Sample.first_question
           [Str "A"] (Str "AB") (Str "S2"));
    reflexivity.
Defined.



End ChatLaws.

(** ** Laws of the token store *)

Module AuthLaws.
Import Js Stream Auth.

Section Laws.

Variable JSON_stringify : value -> string.
Variable JSON_parse : string -> option value.
Variable TypeError_message : string -> string.
Variable SyntaxError_message : string.

Local Abbreviation authenticate :=
  (authenticate JSON_stringify TypeError_message SyntaxError_message).
Local Abbreviation signIn :=
  (signIn JSON_stringify TypeError_message SyntaxError_message).
Local Abbreviation remember := (remember JSON_stringify).
Local Abbreviation getCurrentUser := (getCurrentUser JSON_parse).

(** An answer that is returned was remembered; a rejection leaves the
    store as it was. *)
Lemma authenticate_store (unparsed fallback : string) (answer : fetched)
  (store : Storage) :
  snd (authenticate unparsed fallback answer store) =
  match fst (authenticate unparsed fallback answer store) with
  | Returned data => remember data store
  | Threw _ => store
  end.
Proof.
  unfold Auth.authenticate. destruct answer as [e | r]; [reflexivity|].
  destruct (negb (ok r)).
  - now destruct (nullish _).
  - destruct (json r) as [data|]; [|reflexivity].
    now destruct (nullish data).
Qed.

Lemma remember_token (data : value) (store : Storage) :
  remember data store ACCESS_TOKEN_KEY =
  if truthy (access_token data) then Some (to_string (access_token data))
  else store ACCESS_TOKEN_KEY.
Proof.
  unfold Auth.remember.
  destruct (truthy (prop data "user")), (truthy (access_token data));
    reflexivity.
Qed.

Lemma remember_user (data : value) (store : Storage) :
  remember data store USER_KEY =
  if truthy (prop data "user") then Some (JSON_stringify (prop data "user"))
  else store USER_KEY.
Proof.
  unfold Auth.remember.
  destruct (truthy (prop data "user")), (truthy (access_token data));
    reflexivity.
Qed.

(** X17.  After a sign-up or a sign-in that returns an answer with a
    truthy access token, the text of that token is what is read back
    from the store and the user counts as authenticated; the requests to
    the conversation endpoints carry it as bearer, but for a token whose
    text is empty (an empty array is truthy and has the empty text), for
    which they carry no authorization at all. *)
Theorem answered_token_is_stored (unparsed fallback : string)
  (answer : fetched) (store : Storage) (data : value) :
  fst (authenticate unparsed fallback answer store) = Returned data ->
  truthy (access_token data) = true ->
  getAccessToken (Some (snd (authenticate unparsed fallback answer store))) =
  Some (to_string (access_token data)) /\
  isAuthenticated (Some (snd (authenticate unparsed fallback answer store))) =
  true /\
  Api.getAuthHeaders
    (Some (snd (authenticate unparsed fallback answer store))) =
  ("Content-Type", "application/json") ::
  (if String.eqb (to_string (access_token data)) "" then []
   else [("Authorization", "Bearer " +:+ to_string (access_token data))]).
Proof.
  intros Hret Htoken.
  rewrite authenticate_store, Hret.
  unfold isAuthenticated, Api.getAuthHeaders, getAccessToken, getItem.
  change "supabase_access_token" with ACCESS_TOKEN_KEY.
  rewrite remember_token, Htoken. repeat split.
Qed.


(** X19.  When the answer that is returned carries no truthy access
    token, the token in the store is left as it was: a token stored
    before stays in use, while the user of the answer, if it has one, is
    written over the one before. *)
Theorem answer_without_token_keeps_the_old_one (unparsed fallback : string)
  (answer : fetched) (store : Storage) (data : value) :
  fst (authenticate unparsed fallback answer store) = Returned data ->
  truthy (access_token data) = false ->
  getAccessToken (Some (snd (authenticate unparsed fallback answer store))) =
  getAccessToken (Some store) /\
  (truthy (prop data "user") = true ->
   getItem USER_KEY (snd (authenticate unparsed fallback answer store)) =
   Some (JSON_stringify (prop data "user"))).
Proof.
  intros Hret Htoken.
  rewrite authenticate_store, Hret. unfold getAccessToken, getItem.
  rewrite remember_token, Htoken, remember_user. split; [reflexivity|].
  now intros ->.
Qed.

(** X20.  The user of an answer that is returned is read back by
    [getCurrentUser], provided that [JSON.parse] undoes [JSON.stringify]
    on it and that its text is not empty. *)
Theorem answered_user_is_read_back (unparsed fallback : string)
  (answer : fetched) (store : Storage) (data : value) :
  fst (authenticate unparsed fallback answer store) = Returned data ->
  truthy (prop data "user") = true ->
  JSON_stringify (prop data "user") <> "" ->
  JSON_parse (JSON_stringify (prop data "user")) = Some (prop data "user") ->
  getCurrentUser (Some (snd (authenticate unparsed fallback answer store))) =
  prop data "user".
Proof.
  intros Hret Huser Htext Hparse.
  rewrite authenticate_store, Hret. unfold Auth.getCurrentUser, getItem.
  rewrite remember_user, Huser.
  apply String.eqb_neq in Htext. now rewrite Htext, Hparse.
Qed.

(** X21.  After a sign-out nobody is authenticated, there is no current
    user, the requests carry no bearer, and every other key of the store
    is as before, whatever the store held. *)
Theorem sign_out_forgets_the_session (store : Storage) :
  isAuthenticated (Some (signOut store)) = false /\
  getCurrentUser (Some (signOut store)) = Null /\
  Api.getAuthHeaders (Some (signOut store)) =
  [("Content-Type", "application/json")] /\
  forall key, key <> ACCESS_TOKEN_KEY -> key <> USER_KEY ->
    getItem key (signOut store) = getItem key store.
Proof.
  repeat split. intros key Ht Hu.
  unfold signOut, removeItem, getItem.
  apply String.eqb_neq in Ht, Hu. now rewrite Hu, Ht.
Qed.

End Laws.

Lemma answered_token_is_stored_witness :
  fst (signIn Accounts.print (fun name => name) Accounts.syntax_error
         (Resolved Accounts.welcome) Accounts.stale) =
  Returned
    (Obj [("status", Str "success"); ("user", Accounts.user);
          ("session",
           Obj [("access_token", Str "T1"); ("refresh_token", Str "R1")])]) /\
  getAccessToken
    (Some (snd (signIn Accounts.print (fun name => name)
                  Accounts.syntax_error (Resolved Accounts.welcome)
                  Accounts.stale))) = Some "T1".
Proof.
  split; [reflexivity|].
  apply (answered_token_is_stored Accounts.print (fun name => name)
           Accounts.syntax_error "Sign in failed" "Invalid email or password"
           (Resolved Accounts.welcome) Accounts.stale
           (Obj [("status", Str "success"); ("user", Accounts.user);
                 ("session",
                  Obj [("access_token", Str "T1");
                       ("refresh_token", Str "R1")])]));
    reflexivity.
Defined.


Lemma answer_without_token_keeps_the_old_one_witness :
  truthy (access_token (Obj [("status", Str "success");
                             ("user", Accounts.user);
                             ("session", Null)])) = false /\
  getAccessToken
    (Some (snd (signIn Accounts.print (fun name => name)
                  Accounts.syntax_error (Resolved Accounts.unconfirmed)
                  Accounts.stale))) = Some "T0".
Proof.
  split; [reflexivity|].
  apply (answer_without_token_keeps_the_old_one Accounts.print
           (fun name => name) Accounts.syntax_error
           "Sign in failed" "Invalid email or password"
           (Resolved Accounts.unconfirmed) Accounts.stale
           (Obj [("status", Str "success"); ("user", Accounts.user);
                 ("session", Null)]));
    reflexivity.
Defined.

Lemma answered_user_is_read_back_witness :
  Accounts.parse (Accounts.print Accounts.user) = Some Accounts.user /\
  getCurrentUser Accounts.parse
    (Some (snd (signIn Accounts.print (fun name => name)
                  Accounts.syntax_error (Resolved Accounts.welcome)
                  Accounts.empty))) = Accounts.user.
Proof.
  split; [reflexivity|].
  apply (answered_user_is_read_back Accounts.print Accounts.parse
           (fun name => name) Accounts.syntax_error
           "Sign in failed" "Invalid email or password"
           (Resolved Accounts.welcome) Accounts.empty
           (Obj [("status", Str "success"); ("user", Accounts.user);
                 ("session",
                  Obj [("access_token", Str "T1");
                       ("refresh_token", Str "R1")])]));
    [reflexivity | reflexivity | discriminate | reflexivity].
Defined.

End AuthLaws.

(** ** Laws of the side bar and of the pages *)

Module SidebarLaws.
Import Js Stream Auth Sidebar.

(** X22.  When the endpoint answers with a status that is not a success
    and a body that is not JSON, the side bar shows [Failed to fetch
    conversations] and stays on the page, whatever the status is, 401
    included: the status itself is never looked at, only the detail of
    the body can send the user to the sign-in page. *)
Theorem refusal_without_detail_is_shown
  (as_conversations : value -> list Chat.Conversation.t)
  (TypeError_message : string -> string) (SyntaxError_message : string)
  (r : response) (st : state) :
  ok r = false ->
  json r = None ->
  loadConversations as_conversations
    (Api.getConversations TypeError_message SyntaxError_message (Resolved r))
    st =
  ({| conversations := conversations st;
      isLoading := false;
      error := Some "Failed to fetch conversations";
      menuOpen := menuOpen st |}, None).
Proof.
  intros Hok Hjson. unfold Api.getConversations, Api.error_of.
  rewrite Hok, Hjson. reflexivity.
Qed.

Lemma refusal_without_detail_is_shown_witness :
  ok Accounts.unauthorized = false /\
  loadConversations (fun _ => [])
    (Api.getConversations (fun name => name) Accounts.syntax_error
       (Resolved Accounts.unauthorized))
    Accounts.listed =
  ({| conversations := conversations Accounts.listed;
      isLoading := false;
      error := Some "Failed to fetch conversations";
      menuOpen := menuOpen Accounts.listed |}, None).
Proof.
  split; [reflexivity|].
  apply (refusal_without_detail_is_shown (fun _ => []) (fun name => name)
           Accounts.syntax_error Accounts.unauthorized Accounts.listed);
    reflexivity.
Defined.



Section Dates.

Variable Date_parse : string -> option Z.
Variable toLocaleDateString : option Z -> string.

(** X24.  A date that lies after the present moment is shown as a
    negative number of days ago. *)
Theorem date_ahead_is_days_ago (dateString : string) (date now : Z) :
  Date_parse dateString = Some date ->
  (now < date)%Z ->
  formatDate Date_parse toLocaleDateString dateString now =
  integer ((now - date) / 86400000) +:+ " days ago" /\
  ((now - date) / 86400000 < 0)%Z.
Proof.
  intros Hparse Hahead.
  assert (Hneg : ((now - date) / 86400000 < 0)%Z)
    by (apply Z.div_lt_upper_bound; lia).
  split; [|exact Hneg]. unfold formatDate. rewrite Hparse.
  change (1000 * 60 * 60 * 24)%Z with 86400000%Z. cbv zeta.
  destruct (Z.eqb_spec ((now - date) / 86400000) 0) as [E|_]; [lia|].
  destruct (Z.eqb_spec ((now - date) / 86400000) 1) as [E|_]; [lia|].
  destruct (Z.ltb_spec ((now - date) / 86400000) 7) as [_|E]; [|lia].
  reflexivity.
Qed.

End Dates.

Lemma date_ahead_is_days_ago_witness :
  (0 < 1000)%Z /\
  formatDate (fun _ => Some 1000%Z) (fun _ => "1/1/1970") "1970-01-01" 0 =
  "-1 days ago".
Proof.
  split; [reflexivity|].
  apply (date_ahead_is_days_ago (fun _ => Some 1000%Z) (fun _ => "1/1/1970")
           "1970-01-01" 1000 0); reflexivity.
Defined.

End SidebarLaws.

Module PagesLaws.
Import Js Stream Auth Pages.

Section SignUp.

Variable code_units : string -> nat.
Variable JSON_stringify : value -> string.
Variable TypeError_message : string -> string.
Variable SyntaxError_message : string.

Local Abbreviation handleSubmit network :=
  (handleSubmit code_units JSON_stringify TypeError_message
     SyntaxError_message network).
Local Abbreviation signUp :=
  (signUp JSON_stringify TypeError_message SyntaxError_message).

(** X25.  A password of fewer than six UTF-16 code units, as the host's
    [length] counts, or one that differs from its confirmation, is refused
    on the page: whatever the network would answer, the form only gets an
    error that is not empty, the store is as before and no page is
    pushed. *)
Theorem weak_password_is_not_sent (f : form) (store : Storage) :
  code_units (password f) < 6 \/ password f <> confirmPassword f ->
  exists message,
    message <> "" /\
    forall network,
      handleSubmit network f store = (with_error message f, store, None).
Proof.
  intros H. unfold Pages.handleSubmit.
  destruct (Nat.ltb_spec (code_units (password f)) 6) as [Hshort|Hlong].
  - eexists. split; [|reflexivity]. discriminate.
  - destruct H as [H|H]; [lia|]. apply String.eqb_neq in H. rewrite H.
    eexists. split; [|reflexivity]. discriminate.
Qed.

(** X26.  A sign-up that passes the checks of the page and whose answer
    is returned pushes the home page; the home page then shows the chat
    exactly when the answer carried a truthy access token or a token was
    in the store before, and otherwise sends the user on to the sign-in
    page. *)
Theorem sign_up_then_home (network : string -> string -> fetched)
  (f : form) (store : Storage) (data : value) :
  6 <= code_units (password f) ->
  password f = confirmPassword f ->
  fst (signUp (network (email f) (password f)) store) = Returned data ->
  snd (handleSubmit network f store) = Some "/" /\
  home (snd (fst (handleSubmit network f store))) "/" =
  (truthy (access_token data) || isAuthenticated (Some store),
   if truthy (access_token data) || isAuthenticated (Some store)
   then None else Some "/signin").
Proof.
  intros Hlen Hsame Hret. unfold Pages.handleSubmit.
  destruct (Nat.ltb_spec (code_units (password f)) 6) as [Hshort|_];
    [lia|].
  rewrite Hsame, String.eqb_refl. cbn [negb]. rewrite <- Hsame.
  pose proof (AuthLaws.authenticate_store JSON_stringify TypeError_message
                SyntaxError_message "Sign up failed" "Sign up failed"
                (network (email f) (password f)) store) as Hstore.
  fold signUp in Hstore. rewrite Hret in Hstore.
  destruct (signUp (network (email f) (password f)) store)
    as [[data' | e] store'] eqn:E; cbn [fst snd] in *; [|discriminate].
  injection Hret as ->. subst store'. split; [reflexivity|].
  unfold home, isAuthenticated, getAccessToken, getItem.
  rewrite AuthLaws.remember_token.
  destruct (truthy (access_token data)); [reflexivity|].
  cbn [orb]. now destruct (store ACCESS_TOKEN_KEY).
Qed.

End SignUp.

Lemma weak_password_is_not_sent_witness :
  Sample.units (password Accounts.short_password) < 6 /\
  exists message,
    message <> "" /\
    handleSubmit Sample.units Accounts.print (fun name => name)
      Accounts.syntax_error
      (fun _ _ => Resolved Accounts.welcome)
      Accounts.short_password Accounts.empty =
    (with_error message Accounts.short_password, Accounts.empty, None).
Proof.
  split; [cbn; lia|].
  destruct (weak_password_is_not_sent Sample.units Accounts.print
              (fun name => name)
              Accounts.syntax_error Accounts.short_password Accounts.empty
              (or_introl (proj1 (Nat.leb_le 4 6) eq_refl)))
    as (message & Hmessage & Hall).
  exists message. split; [exact Hmessage | apply Hall].
Defined.

Lemma sign_up_then_home_witness :
  6 <= Sample.units (password Accounts.new_account) /\
  snd (handleSubmit Sample.units Accounts.print (fun name => name)
      Accounts.syntax_error
         (fun _ _ => Resolved Accounts.unconfirmed)
         Accounts.new_account Accounts.empty) = Some "/" /\
  home
    (snd (fst (handleSubmit Sample.units Accounts.print (fun name => name)
                 Accounts.syntax_error
                 (fun _ _ => Resolved Accounts.unconfirmed)
                 Accounts.new_account Accounts.empty))) "/" =
  (false, Some "/signin").
Proof.
  split; [cbn; lia|].
  apply (sign_up_then_home Sample.units Accounts.print (fun name => name)
           Accounts.syntax_error (fun _ _ => Resolved Accounts.unconfirmed)
           Accounts.new_account Accounts.empty
           (Obj [("status", Str "success"); ("user", Accounts.user);
                 ("session", Null)]));
    [cbn; lia | reflexivity | reflexivity].
Defined.

End PagesLaws.
